(** * Perceval backends [googlehits.py] and [jenkins.py]

    A shallow embedding of the two backends found under
    [perceval/backends/core/], followed by the properties of their fetch
    orchestration.

    Conventions of the embedding.
    - A Python [str] is a Rocq [string]; a character stands for the code
      point with the same number (0 to 255).  In that range the characters
      matched by the regular expression [\d] are the ten digits 0 to 9.
    - A Python exception is a constructor of [Py.exn]; a call that may raise
      returns a [Py.result].
    - Code that lives outside the two files (the HTTP transport behind
      [HttpClient.fetch], [json.loads], [bs4.BeautifulSoup], [uuid],
      [urijoin], [str] of a value that is not a string, the clock) is a
      field of the class [Collaborators] of each backend: the theorems hold
      for every behaviour of these collaborators.  [Backend.fetch], which
      builds the client and wraps [fetch_items], is not part of the files.
    - [int] applied to a run of digits raises [ValueError] when the run is
      longer than the interpreter allows ([sys.get_int_max_str_digits()],
      4300 by default where the setting exists); the limit is the field
      [int_max_str_digits] of the collaborators, 0 standing for no limit.
    - Every request handed to [HttpClient.fetch] is appended to the
      [requests] log of the [World]; a call that sends nothing leaves the
      log as it was.  The constructors [__init__] take no [World]: they
      cannot send anything.
    - A generator is run to exhaustion: a [Run] holds the items yielded, in
      order, how the generator ended and the world it left. *)

From Stdlib Require Import String Ascii List ZArith Bool Lia.
Import ListNotations.
Local Open Scope string_scope.
Local Open Scope Z_scope.
#[local] Set Warnings "-register-all".

(** ** Python values, exceptions and the few builtins the backends use *)

Module Py.

Inductive exn : Type :=
| BackendError (cause : string)
| HTTPError (status_code : Z)
| ValueError
| KeyError (key : string)
| TypeError
| AttributeError
| OtherError (name : string).

Inductive result (A : Type) : Type :=
| Ok (a : A)
| Raise (e : exn).

Arguments Ok {A} a.
Arguments Raise {A} e.

Definition bind {A B : Type} (r : result A) (k : A -> result B) : result B :=
  match r with
  | Ok a => k a
  | Raise e => Raise e
  end.

(** A binary64 float, kept as its bit pattern: the backends only store it
    and print it. *)
Inductive float : Type :=
| Float64 (bits : N).

(** The values [json.loads] produces, which are also the items the backends
    yield.  A [dict] keeps its entries in insertion order. *)
Inductive value : Type :=
| PNone
| PBool (b : bool)
| PInt (n : Z)
| PFloat (x : float)
| PStr (s : string)
| PList (items : list value)
| PDict (entries : list (string * value)).

Fixpoint dict_get (entries : list (string * value)) (key : string) : option value :=
  match entries with
  | [] => None
  | (k, v) :: rest => if String.eqb k key then Some v else dict_get rest key
  end.

(** [d[key] = v]: an existing key keeps its place. *)
Fixpoint dict_set (entries : list (string * value)) (key : string) (v : value)
  : list (string * value) :=
  match entries with
  | [] => [(key, v)]
  | (k, v0) :: rest =>
      if String.eqb k key then (k, v) :: rest else (k, v0) :: dict_set rest key v
  end.

(** [obj[key]] for a string [key]. *)
Definition getitem (obj : value) (key : string) : result value :=
  match obj with
  | PDict entries =>
      match dict_get entries key with
      | Some v => Ok v
      | None => Raise (KeyError key)
      end
  | _ => Raise TypeError
  end.

Definition chars (s : string) : list string :=
  map (fun c => String c EmptyString) (list_ascii_of_string s).

(** The sequence [for x in obj] walks through. *)
Definition iter (obj : value) : result (list value) :=
  match obj with
  | PList items => Ok items
  | PDict entries => Ok (map (fun kv => PStr (fst kv)) entries)
  | PStr s => Ok (map PStr (chars s))
  | _ => Raise TypeError
  end.

(** Truth value of an argument that is [None] or a [str]. *)
Definition truthy (x : option string) : bool :=
  match x with
  | None => false
  | Some s => negb (String.eqb s "")
  end.

(** Truth value of an argument that is [None] or a [list]. *)
Definition truthy_list {A : Type} (x : option (list A)) : bool :=
  match x with
  | None => false
  | Some [] => false
  | Some (_ :: _) => true
  end.

(** [x in l] for a list [l] of strings: only a [str] can be equal to one. *)
Definition contains (l : list string) (x : value) : bool :=
  match x with
  | PStr s => existsb (String.eqb s) l
  | _ => false
  end.

(** [str.isspace] on one character. *)
Definition isspace (c : ascii) : bool :=
  let n := nat_of_ascii c in
  ((9 <=? n) && (n <=? 13) || (28 <=? n) && (n <=? 32)
   || (n =? 133) || (n =? 160))%nat.

Fixpoint lstrip (s : string) : string :=
  match s with
  | EmptyString => EmptyString
  | String c rest => if isspace c then lstrip rest else s
  end.

Fixpoint rstrip (s : string) : string :=
  match s with
  | EmptyString => EmptyString
  | String c rest =>
      let rest' := rstrip rest in
      if isspace c && String.eqb rest' "" then EmptyString else String c rest'
  end.

(** [s.strip()] *)
Definition strip (s : string) : string := rstrip (lstrip s).

(** [s.replace(c, '')] for a one-character [c]. *)
Fixpoint remove_char (c : ascii) (s : string) : string :=
  match s with
  | EmptyString => EmptyString
  | String d rest =>
      if Ascii.eqb d c then remove_char c rest else String d (remove_char c rest)
  end.

Definition isdigit (c : ascii) : bool :=
  let n := nat_of_ascii c in ((48 <=? n) && (n <=? 57))%nat.

Fixpoint take_digits (s : string) : string :=
  match s with
  | EmptyString => EmptyString
  | String c rest => if isdigit c then String c (take_digits rest) else EmptyString
  end.

(** [re.search(r'\d+', s)]: [None] without a digit, else the match object,
    held as its [group(0)], the first maximal run of digits. *)
Fixpoint re_search_digits (s : string) : option string :=
  match s with
  | EmptyString => None
  | String c rest => if isdigit c then Some (take_digits s) else re_search_digits rest
  end.

Fixpoint int_digits (acc : Z) (s : string) : Z :=
  match s with
  | EmptyString => acc
  | String c rest => int_digits (10 * acc + (Z.of_nat (nat_of_ascii c) - 48)) rest
  end.

(** The number a run of decimal digits spells. *)
Definition int_of_digits (s : string) : Z := int_digits 0 s.

(** Below this many digits [int] does not look at the limit. *)
Definition INT_MAX_STR_DIGITS_THRESHOLD : nat := 640.

(** Whether [int(s)] refuses the run of digits [s] for its length, under
    the limit [sys.get_int_max_str_digits()] of the interpreter; the limit
    0 stands for no limit, as on an interpreter that has no such setting.
    Leading zeros count. *)
Definition int_too_long (max_str_digits : nat) (s : string) : bool :=
  let digits := String.length s in
  ((INT_MAX_STR_DIGITS_THRESHOLD <? digits)
   && (0 <? max_str_digits) && (max_str_digits <? digits))%nat.

(** [int(s)] on a run of decimal digits. *)
Definition int_of_str (max_str_digits : nat) (s : string) : result Z :=
  if int_too_long max_str_digits s then Raise ValueError
  else Ok (int_of_digits s).

(** [sep.join(l)] *)
Definition join (sep : string) (l : list string) : string := String.concat sep l.

(** *** The transport seen from the backends *)

(** The arguments of one [HttpClient.fetch] call. *)
Record Request : Type := mkRequest {
  req_url : string;
  req_payload : option (list (string * value));
  req_auth : option (string * string)
}.

(** What [HttpClient.__init__] receives from a source client; [None] for an
    argument left to its default. *)
Record HttpClient : Type := mkHttpClient {
  base_url : string;
  http_sleep_time : Z;
  http_max_retries : option Z;
  extra_status_forcelist : list Z;
  http_archive : option string;
  from_archive : bool
}.

Record World : Type := mkWorld {
  requests : list Request;
  summary_skipped : Z
}.

Definition log_request (r : Request) (w : World) : World :=
  {| requests := requests w ++ [r]; summary_skipped := summary_skipped w |}.

(** [self.summary.skipped += 1] *)
Definition skip_one (w : World) : World :=
  {| requests := requests w; summary_skipped := summary_skipped w + 1 |}.

(** A generator run to its end. *)
Record Run : Type := mkRun {
  yielded : list value;
  ending : result unit;
  world : World
}.

Definition finish (w : World) : Run :=
  {| yielded := []; ending := Ok tt; world := w |}.

Definition abort (e : exn) (w : World) : Run :=
  {| yielded := []; ending := Raise e; world := w |}.

(** [yield] each of [items], then go on as [rest]. *)
Definition yield_all (items : list value) (rest : Run) : Run :=
  {| yielded := items ++ yielded rest; ending := ending rest; world := world rest |}.

(** Run [r]; if it completes, go on with [k] from the world it left. *)
Definition and_then (r : Run) (k : World -> Run) : Run :=
  match ending r with
  | Ok _ => yield_all (yielded r) (k (world r))
  | Raise _ => r
  end.

End Py.

Import Py.

Notation "x <- r ;; k" := (Py.bind r (fun x => k))
  (at level 61, r at next level, right associativity).

(** ** googlehits.py *)

Module GoogleHits.

Definition DEFAULT_SLEEP_TIME : Z := 1.
Definition MAX_RETRIES : Z := 5.
Definition CATEGORY_HITS : string := "google_hits".
Definition GOOGLE_SEARCH_URL : string := "https://www.google.com/search".
Definition EXTRA_STATUS_FORCELIST : list Z := [429].

(** The attributes [GoogleHits.__init__] sets. *)
Record Backend : Type := mkBackend {
  keywords : list string;
  origin : string;
  tag : option string;
  archive : option string;
  max_retries : Z;
  sleep_time : Z;
  client : option HttpClient
}.

Definition set_client (self : Backend) (c : HttpClient) : Backend :=
  {| keywords := keywords self; origin := origin self; tag := tag self;
     archive := archive self; max_retries := max_retries self;
     sleep_time := sleep_time self; client := Some c |}.

(** [GoogleHits.__init__] *)
Definition __init__ (keywords : list string) (tag archive : option string)
    (max_retries sleep_time : Z) : result Backend :=
  if (Nat.eqb (List.length keywords) 1
      && String.eqb (strip (nth 0 keywords "")) "")%bool
  then Raise (BackendError "No keywords provided")
  else Ok {| keywords := keywords; origin := GOOGLE_SEARCH_URL; tag := tag;
             archive := archive; max_retries := max_retries;
             sleep_time := sleep_time; client := None |}.

(** [GoogleHitsClient.__init__]: the client has no state of its own. *)
Definition GoogleHitsClient__init__ (sleep_time max_retries : Z)
    (archive : option string) (from_archive : bool) : HttpClient :=
  {| base_url := GOOGLE_SEARCH_URL;
     http_sleep_time := sleep_time;
     http_max_retries := Some max_retries;
     extra_status_forcelist := EXTRA_STATUS_FORCELIST;
     http_archive := archive;
     from_archive := from_archive |}.

Definition _init_client (self : Backend) (from_archive : bool) : HttpClient :=
  GoogleHitsClient__init__ (sleep_time self) (max_retries self) (archive self)
    from_archive.

Definition has_archiving : bool := true.
Definition has_resuming : bool := true.

Definition metadata_id (item : value) : result value := getitem item "id".
Definition metadata_updated_on (item : value) : result value :=
  getitem item "fetched_on".
Definition metadata_category (item : value) : string := CATEGORY_HITS.

(** The code [googlehits.py] calls without defining it. *)
Class Collaborators : Type := {
  (** [HttpClient.fetch(...).text]: the body of the response, or the
      exception the transport raises. *)
  http_fetch : HttpClient -> Request -> result string;
  (** [bs4.BeautifulSoup(hit_raw, 'html.parser').find("div", id="resultStats")]:
      [None], or the tag found, held as its [.text]. *)
  find_resultStats : string -> option string;
  (** [datetime_utcnow().timestamp()] as read during the run. *)
  utcnow_timestamp : float;
  (** [str] of a float. *)
  float_str : float -> string;
  (** [uuid] of [perceval.backend], applied to its argument list. *)
  uuid : list string -> result string;
  (** [sys.get_int_max_str_digits()]: the longest run of digits [int]
      converts, 0 for no limit. *)
  int_max_str_digits : nat
}.

Section Fetch.

Context {env : Collaborators}.

(** [self.fetch(url, payload=..., auth=...)] followed by [.text] *)
Definition fetch_text (c : HttpClient) (r : Request) (w : World)
  : result string * World :=
  (http_fetch c r, log_request r w).

(** The search string [hits] builds from the keywords. *)
Definition query_str (keywords : list string) : string :=
  if Nat.eqb (List.length keywords) 1 then nth 0 keywords ""
  else join " " keywords.

(** The request [hits] sends. *)
Definition hits_request (keywords : list string) : Request :=
  let params := [("q", PStr (query_str keywords))] in
  {| req_url := GOOGLE_SEARCH_URL; req_payload := Some params; req_auth := None |}.

(** [GoogleHitsClient.hits] *)
Definition hits (self : HttpClient) (keywords : list string) (w : World)
  : result string * World :=
  fetch_text self (hits_request keywords) w.

(** The two [replace] calls of [__parse_hits]: commas, then dots, go. *)
Definition remove_separators (hit_string : string) : string :=
  let hit_string := remove_char ","%char hit_string in
  remove_char "."%char hit_string.

(** The arguments [__parse_hits] hands to [uuid]. *)
Definition id_args (self : Backend) (fetched_on : float) : list string :=
  (keywords self ++ [float_str fetched_on])%list.

(** The dictionary [__parse_hits] builds before it looks at the count. *)
Definition hits_json (self : Backend) (id : string) : list (string * value) :=
  [("fetched_on", PFloat utcnow_timestamp);
   ("id", PStr id);
   ("keywords", PList (map PStr (keywords self)));
   ("type", PStr "googleSearchHits")].

(** [GoogleHits.__parse_hits] *)
Definition __parse_hits (self : Backend) (hit_raw : string) : result value :=
  hit_string <- match find_resultStats hit_raw with
                | Some text => Ok text
                | None => Raise AttributeError
                end ;;
  let hit_string := remove_separators hit_string in
  let fetched_on := utcnow_timestamp in
  id <- uuid (id_args self fetched_on) ;;
  if String.eqb hit_string "" then
    Ok (PDict (dict_set (hits_json self id) "hits" (PInt 0)))
  else
    str_hits <- match re_search_digits hit_string with
                | Some m => Ok m
                | None => Raise AttributeError
                end ;;
    hits <- int_of_str int_max_str_digits str_hits ;;
    Ok (PDict (dict_set (hits_json self id) "hits" (PInt hits))).

(** [GoogleHits.fetch_items] *)
Definition fetch_items (self : Backend) (category : string) (w : World) : Run :=
  match client self with
  | None => abort AttributeError w
  | Some c =>
      let (r, w1) := hits c (keywords self) w in
      match r with
      | Raise e => abort e w1
      | Ok hits_raw =>
          match __parse_hits self hits_raw with
          | Raise e => abort e w1
          | Ok hits => yield_all [hits] (finish w1)
          end
      end
  end.

(** *** Notions used to state the properties of the parse *)

(** The characters the two [replace] calls drop. *)
Definition is_separator (c : ascii) : bool :=
  (Ascii.eqb c ","%char || Ascii.eqb c "."%char)%bool.

Definition only_separators (s : string) : bool :=
  forallb is_separator (list_ascii_of_string s).

Definition has_digit (s : string) : bool :=
  existsb isdigit (list_ascii_of_string s).

(** A run of digits with separators in between, as in [1,234,567]. *)
Definition digits_and_separators (s : string) : bool :=
  forallb (fun c => (isdigit c || is_separator c)%bool) (list_ascii_of_string s).

(** The item [__parse_hits] returns for the count [n]. *)
Definition hits_item (self : Backend) (id : string) (n : Z) : value :=
  PDict [("fetched_on", PFloat utcnow_timestamp);
         ("id", PStr id);
         ("keywords", PList (map PStr (keywords self)));
         ("type", PStr "googleSearchHits");
         ("hits", PInt n)].

End Fetch.

End GoogleHits.

(** ** jenkins.py *)

Module Jenkins.

Definition CATEGORY_BUILD : string := "build".
Definition SLEEP_TIME : Z := 10.
Definition DETAIL_DEPTH : Z := 1.
Definition EXTRA_STATUS_FORCELIST : list Z := [410; 502; 503].
Definition MAX_RETRIES : Z := 5.

(** The attributes [JenkinsClient.__init__] sets, next to those of the
    [HttpClient] it extends. *)
Record JenkinsClient : Type := mkJenkinsClient {
  http : HttpClient;
  auth : option (string * string);
  blacklist_jobs : option (list string);
  client_detail_depth : Z
}.

(** The attributes [Jenkins.__init__] sets. *)
Record Backend : Type := mkBackend {
  url : string;
  origin : string;
  user : option string;
  api_token : option string;
  tag : option string;
  archive : option string;
  sleep_time : Z;
  blacklist_ids : option (list string);
  detail_depth : Z;
  client : option JenkinsClient
}.

Definition set_client (self : Backend) (c : JenkinsClient) : Backend :=
  {| url := url self; origin := origin self; user := user self;
     api_token := api_token self; tag := tag self; archive := archive self;
     sleep_time := sleep_time self; blacklist_ids := blacklist_ids self;
     detail_depth := detail_depth self; client := Some c |}.

(** [Jenkins.__init__] *)
Definition __init__ (url : string) (user api_token tag archive : option string)
    (detail_depth sleep_time : Z) (blacklist_ids : option (list string))
  : result Backend :=
  if (truthy user && negb (truthy api_token)
      || negb (truthy user) && truthy api_token)%bool
  then Raise (BackendError "Authentication method requires user and api_token")
  else Ok {| url := url; origin := url; user := user; api_token := api_token;
             tag := tag; archive := archive; sleep_time := sleep_time;
             blacklist_ids := blacklist_ids; detail_depth := detail_depth;
             client := None |}.

(** [JenkinsClient.__init__] *)
Definition JenkinsClient__init__ (url : string) (user api_token : option string)
    (blacklist_jobs : option (list string)) (detail_depth sleep_time : Z)
    (archive : option string) (from_archive : bool) : JenkinsClient :=
  {| http := {| base_url := url;
                http_sleep_time := sleep_time;
                http_max_retries := None;
                extra_status_forcelist := EXTRA_STATUS_FORCELIST;
                http_archive := archive;
                from_archive := from_archive |};
     auth := if (truthy user && truthy api_token)%bool
             then match user, api_token with
                  | Some u, Some t => Some (u, t)
                  | _, _ => None
                  end
             else None;
     blacklist_jobs := blacklist_jobs;
     client_detail_depth := detail_depth |}.

Definition _init_client (self : Backend) (from_archive : bool) : JenkinsClient :=
  JenkinsClient__init__ (url self) (user self) (api_token self)
    (blacklist_ids self) (detail_depth self) (sleep_time self) (archive self)
    from_archive.

Definition has_archiving : bool := true.
Definition has_resuming : bool := false.

Definition metadata_category (item : value) : string := CATEGORY_BUILD.

(** The code [jenkins.py] calls without defining it. *)
Class Collaborators : Type := {
  (** [HttpClient.fetch(...).text]: the body of the response, or the
      exception the transport raises. *)
  http_fetch : HttpClient -> Request -> result string;
  (** [json.loads] *)
  json_loads : string -> result value;
  (** [urijoin] of [grimoirelab_toolkit.uris], applied to its argument list. *)
  urijoin : list value -> string;
  (** [str] of a value that is not a [str]. *)
  repr : value -> string
}.

Section Fetch.

Context {env : Collaborators}.

(** [str(x)] *)
Definition str (x : value) : string :=
  match x with
  | PStr s => s
  | _ => repr x
  end.

(** [Jenkins.metadata_id] *)
Definition metadata_id (item : value) : result string :=
  u <- getitem item "url" ;;
  Ok (str u).

(** [self.fetch(url, payload=..., auth=...)] followed by [.text] *)
Definition fetch_text (c : HttpClient) (r : Request) (w : World)
  : result string * World :=
  (http_fetch c r, log_request r w).

(** The request [get_jobs] sends. *)
Definition jobs_request (self : JenkinsClient) : Request :=
  let url_jenkins := urijoin [PStr (base_url (http self)); PStr "api"; PStr "json"] in
  {| req_url := url_jenkins; req_payload := None; req_auth := auth self |}.

(** [JenkinsClient.get_jobs] *)
Definition get_jobs (self : JenkinsClient) (w : World) : result string * World :=
  fetch_text (http self) (jobs_request self) w.

(** [self.blacklist_jobs and job_name in self.blacklist_jobs] *)
Definition blacklisted (self : JenkinsClient) (job_name : value) : bool :=
  (truthy_list (blacklist_jobs self)
   && match blacklist_jobs self with
      | Some l => contains l job_name
      | None => false
      end)%bool.

(** The request [get_builds] sends for a job it does not leave out. *)
Definition builds_request (self : JenkinsClient) (job_name : value) : Request :=
  let payload := [("depth", PInt (client_detail_depth self))] in
  let url_build :=
    urijoin [PStr (base_url (http self)); PStr "job"; job_name;
             PStr "api"; PStr "json"] in
  {| req_url := url_build; req_payload := Some payload; req_auth := auth self |}.

(** [JenkinsClient.get_builds]: [Ok None] is the bare [return]. *)
Definition get_builds (self : JenkinsClient) (job_name : value) (w : World)
  : result (option string) * World :=
  if blacklisted self job_name then (Ok None, w)
  else
    let (r, w1) := fetch_text (http self) (builds_request self job_name) w in
    (text <- r ;; Ok (Some text), w1).

(** The [for job in jobs] loop of [Jenkins.fetch_items]. *)
Fixpoint fetch_items_loop (c : JenkinsClient) (jobs : list value) (w : World)
  : Run :=
  match jobs with
  | [] => finish w
  | job :: rest =>
      match (_ <- getitem job "url" ;; getitem job "name") with
      | Raise e => abort e w
      | Ok job_name =>
          let (r, w1) := get_builds c job_name w in
          match r with
          | Raise (HTTPError status_code) =>
              if status_code =? 500
              then fetch_items_loop c rest (skip_one w1)
              else abort (HTTPError status_code) w1
          | Raise e => abort e w1
          | Ok raw_builds =>
              match (if truthy raw_builds then raw_builds else None) with
              | None => fetch_items_loop c rest (skip_one w1)
              | Some raw_builds =>
                  match json_loads raw_builds with
                  | Raise ValueError => fetch_items_loop c rest (skip_one w1)
                  | Raise e => abort e w1
                  | Ok builds =>
                      match (builds <- getitem builds "builds" ;; iter builds) with
                      | Raise e => abort e w1
                      | Ok builds =>
                          yield_all builds (fetch_items_loop c rest w1)
                      end
                  end
              end
          end
      end
  end.

(** [Jenkins.fetch_items] *)
Definition fetch_items (self : Backend) (category : string) (w : World) : Run :=
  match client self with
  | None => abort AttributeError w
  | Some c =>
      let (r, w1) := get_jobs c w in
      match (text <- r ;;
             projects <- json_loads text ;;
             jobs <- getitem projects "jobs" ;;
             iter jobs) with
      | Raise e => abort e w1
      | Ok jobs => fetch_items_loop c jobs w1
      end
  end.

(** *** Notions used to state the properties of the walk *)

(** The list of jobs [fetch_items] walks, or the exception that stops it
    before the first job. *)
Definition job_listing (c : JenkinsClient) : result (list value) :=
  text <- http_fetch (http c) (jobs_request c) ;;
  projects <- json_loads text ;;
  jobs <- getitem projects "jobs" ;;
  iter jobs.

(** What [get_builds] returns for a job name, and the world it leaves. *)
Definition builds_payload (c : JenkinsClient) (job_name : value)
  : result (option string) :=
  if blacklisted c job_name then Ok None
  else text <- http_fetch (http c) (builds_request c job_name) ;; Ok (Some text).

Definition after_get_builds (c : JenkinsClient) (job_name : value) (w : World)
  : World :=
  if blacklisted c job_name then w else log_request (builds_request c job_name) w.

(** How the walk can fare on one job. *)
Inductive Branch : Type :=
| Unavailable                  (* the request failed with status 500 *)
| NoData                       (* no payload, or an empty one *)
| Unparsable                   (* a payload that is not JSON *)
| Builds (items : list value)  (* the builds the payload lists *)
| Fatal (e : exn).             (* any other exception *)

Definition branch_of_payload (payload : result (option string)) : Branch :=
  match payload with
  | Raise (HTTPError status_code) =>
      if status_code =? 500 then Unavailable else Fatal (HTTPError status_code)
  | Raise e => Fatal e
  | Ok None => NoData
  | Ok (Some text) =>
      if String.eqb text "" then NoData
      else match json_loads text with
           | Raise ValueError => Unparsable
           | Raise e => Fatal e
           | Ok payload =>
               match (builds <- getitem payload "builds" ;; iter builds) with
               | Ok items => Builds items
               | Raise e => Fatal e
               end
           end
  end.

Definition branch (c : JenkinsClient) (job : value) : Branch :=
  match (_ <- getitem job "url" ;; getitem job "name") with
  | Raise e => Fatal e
  | Ok job_name => branch_of_payload (builds_payload c job_name)
  end.

(** The world after the walk has asked for the builds of [job]. *)
Definition after_job (c : JenkinsClient) (job : value) (w : World) : World :=
  match (_ <- getitem job "url" ;; getitem job "name") with
  | Raise _ => w
  | Ok job_name => after_get_builds c job_name w
  end.

Definition branch_items (b : Branch) : list value :=
  match b with
  | Builds items => items
  | _ => []
  end.

Definition is_skipped (b : Branch) : bool :=
  match b with
  | Unavailable | NoData | Unparsable => true
  | _ => false
  end.

Definition is_fatal (b : Branch) : bool :=
  match b with
  | Fatal _ => true
  | _ => false
  end.

(** A well-formed job entry whose name is on the deny-list. *)
Definition denied (c : JenkinsClient) (job : value) : bool :=
  match (_ <- getitem job "url" ;; getitem job "name") with
  | Raise _ => false
  | Ok job_name => blacklisted c job_name
  end.

(** The requests a client may send: the job listing, and the builds of a
    job name that is not on the deny-list. *)
Definition allowed_request (c : JenkinsClient) (r : Request) : Prop :=
  r = jobs_request c
  \/ exists job_name, blacklisted c job_name = false /\ r = builds_request c job_name.

End Fetch.

End Jenkins.

(** ** Sample collaborators

    Concrete stand-ins for the code outside the two files, used to run the
    backends on explicit inputs. *)

Module Samples.

Definition page_rust : string := "<div id='resultStats'>12,345 results</div>".
Definition page_empty : string := "<div id='resultStats'></div>".
Definition page_no_results : string := "<div id='resultStats'>No results</div>".
Definition page_captcha : string := "<div id='captcha'>Are you a robot?</div>".

(** A search engine that knows three queries and refuses the others. *)
Definition google : GoogleHits.Collaborators :=
  {| GoogleHits.http_fetch := fun _ r =>
       match req_payload r with
       | Some [(_, PStr q)] =>
           if String.eqb q "rust programming" then Ok page_rust
           else if String.eqb q "" then Ok page_empty
           else if String.eqb q "qwertzuiop" then Ok page_no_results
           else Ok page_captcha
       | _ => Raise (HTTPError 400)
       end;
     GoogleHits.find_resultStats := fun raw =>
       if String.eqb raw page_rust then Some "12,345 results"
       else if String.eqb raw page_empty then Some ""
       else if String.eqb raw page_no_results then Some "No results"
       else None;
     GoogleHits.utcnow_timestamp := Float64 4744272463624404992;
     GoogleHits.float_str := fun _ => "1546300800.0";
     GoogleHits.uuid := fun args => Ok (join ":" args);
     GoogleHits.int_max_str_digits := 4300 |}.

(** The connector for [keywords], with its client built as for a live run. *)
Definition google_backend (keywords : list string) : GoogleHits.Backend :=
  {| GoogleHits.keywords := keywords;
     GoogleHits.origin := GoogleHits.GOOGLE_SEARCH_URL;
     GoogleHits.tag := None;
     GoogleHits.archive := None;
     GoogleHits.max_retries := GoogleHits.MAX_RETRIES;
     GoogleHits.sleep_time := GoogleHits.DEFAULT_SLEEP_TIME;
     GoogleHits.client :=
       Some (GoogleHits.GoogleHitsClient__init__ GoogleHits.DEFAULT_SLEEP_TIME
               GoogleHits.MAX_RETRIES None false) |}.

Definition page_about : string :=
  "<div id='resultStats'>About 1,234,567 results (0.45 seconds)</div>".

(** A search engine that answers every query with the same page, next to a
    [uuid] that refuses an empty argument. *)
Definition strict_google : GoogleHits.Collaborators :=
  {| GoogleHits.http_fetch := fun _ _ => Ok page_about;
     GoogleHits.find_resultStats := fun raw =>
       if String.eqb raw page_about
       then Some "About 1,234,567 results (0.45 seconds)"
       else None;
     GoogleHits.utcnow_timestamp := Float64 4744272463624404992;
     GoogleHits.float_str := fun _ => "1546300800.0";
     GoogleHits.uuid := fun args =>
       if existsb (String.eqb "") args then Raise ValueError
       else Ok (join ":" args);
     GoogleHits.int_max_str_digits := 4300 |}.

Fixpoint sevens (n : nat) : string :=
  match n with
  | O => EmptyString
  | S m => String "7"%char (sevens m)
  end.

(** A search engine whose marker holds 641 digits, on an interpreter whose
    [int] converts 640 digits at most. *)
Definition counting_google : GoogleHits.Collaborators :=
  {| GoogleHits.http_fetch := fun _ _ => Ok page_about;
     GoogleHits.find_resultStats := fun _ => Some (sevens 641);
     GoogleHits.utcnow_timestamp := Float64 4744272463624404992;
     GoogleHits.float_str := fun _ => "1546300800.0";
     GoogleHits.uuid := fun args => Ok (join ":" args);
     GoogleHits.int_max_str_digits := 640 |}.

Definition fresh : World := {| requests := []; summary_skipped := 0 |}.

Definition job (name url : string) : value :=
  PDict [("name", PStr name); ("url", PStr url)].

Definition build (number : Z) (url : string) : value :=
  PDict [("number", PInt number); ("url", PStr url);
         ("timestamp", PInt 1546300800000)].

Definition job_A : value := job "A" "https://ci.example.org/job/A/".
Definition job_B : value := job "B" "https://ci.example.org/job/B/".
Definition job_C : value := job "C" "https://ci.example.org/job/C/".
Definition job_D : value := job "D" "https://ci.example.org/job/D/".
Definition job_E : value := job "E" "https://ci.example.org/job/E/".
Definition build_A1 : value := build 1 "https://ci.example.org/job/A/1/".
Definition build_A2 : value := build 2 "https://ci.example.org/job/A/2/".

(** A CI server with five jobs: [A] has two builds, [B] answers 500, [C]
    answers with an empty body, [D] with a page that is not JSON, and [E]
    answers 404.  The node at [https://ci.example.org] lists the first four
    jobs, any other node lists [A], [E], [A]. *)
Definition jenkins : Jenkins.Collaborators :=
  {| Jenkins.http_fetch := fun c r =>
       let base := base_url c in
       if String.eqb (req_url r) (base ++ "/api/json") then
         Ok (if String.eqb base "https://ci.example.org"
             then "jobs: A B C D" else "jobs: A E A")
       else if String.eqb (req_url r) (base ++ "/job/A/api/json") then
         Ok "builds: A1 A2"
       else if String.eqb (req_url r) (base ++ "/job/B/api/json") then
         Raise (HTTPError 500)
       else if String.eqb (req_url r) (base ++ "/job/C/api/json") then
         Ok ""
       else if String.eqb (req_url r) (base ++ "/job/D/api/json") then
         Ok "<html>Oops</html>"
       else Raise (HTTPError 404);
     Jenkins.json_loads := fun text =>
       if String.eqb text "jobs: A B C D" then
         Ok (PDict [("jobs", PList [job_A; job_B; job_C; job_D])])
       else if String.eqb text "jobs: A E A" then
         Ok (PDict [("jobs", PList [job_A; job_E; job_A])])
       else if String.eqb text "builds: A1 A2" then
         Ok (PDict [("builds", PList [build_A1; build_A2])])
       else Raise ValueError;
     Jenkins.urijoin := fun parts =>
       join "/" (map (fun part => match part with
                                  | PStr s => s
                                  | _ => "?"
                                  end) parts);
     Jenkins.repr := fun _ => "<object>" |}.

(** The connector for the node at [url], with its client built as for a
    live run. *)
Definition jenkins_backend (url : string) (user api_token : option string)
    (blacklist_ids : option (list string)) : Jenkins.Backend :=
  {| Jenkins.url := url;
     Jenkins.origin := url;
     Jenkins.user := user;
     Jenkins.api_token := api_token;
     Jenkins.tag := None;
     Jenkins.archive := None;
     Jenkins.sleep_time := Jenkins.SLEEP_TIME;
     Jenkins.blacklist_ids := blacklist_ids;
     Jenkins.detail_depth := Jenkins.DETAIL_DEPTH;
     Jenkins.client :=
       Some (Jenkins.JenkinsClient__init__ url user api_token blacklist_ids
               Jenkins.DETAIL_DEPTH Jenkins.SLEEP_TIME None false) |}.

Definition job_F : value := job "F" "https://ci.example.org/job/F/".

(** A job entry without its [url]. *)
Definition job_without_url : value := PDict [("name", PStr "A")].

(** A second CI server.  Its node at [https://down.example.org] answers the
    job listing with status 500, the node at [https://html.example.org]
    with a page that is not JSON, the node at [https://plain.example.org]
    with an object that has no [jobs] entry, the node at
    [https://bad.example.org] lists [A], an entry without [url], [A]; any
    other node lists [A], [F], [A].  Job [A] has two builds, job [F]
    answers with an object that has no [builds] entry. *)
Definition troubled_jenkins : Jenkins.Collaborators :=
  {| Jenkins.http_fetch := fun c r =>
       let base := base_url c in
       if String.eqb (req_url r) (base ++ "/api/json") then
         if String.eqb base "https://down.example.org" then Raise (HTTPError 500)
         else if String.eqb base "https://html.example.org" then
           Ok "<html>Login</html>"
         else if String.eqb base "https://plain.example.org" then
           Ok "mode: NORMAL"
         else if String.eqb base "https://bad.example.org" then
           Ok "jobs: A ? A"
         else Ok "jobs: A F A"
       else if String.eqb (req_url r) (base ++ "/job/A/api/json") then
         Ok "builds: A1 A2"
       else if String.eqb (req_url r) (base ++ "/job/F/api/json") then
         Ok "{}"
       else Raise (HTTPError 404);
     Jenkins.json_loads := fun text =>
       if String.eqb text "jobs: A F A" then
         Ok (PDict [("jobs", PList [job_A; job_F; job_A])])
       else if String.eqb text "jobs: A ? A" then
         Ok (PDict [("jobs", PList [job_A; job_without_url; job_A])])
       else if String.eqb text "mode: NORMAL" then
         Ok (PDict [("mode", PStr "NORMAL")])
       else if String.eqb text "builds: A1 A2" then
         Ok (PDict [("builds", PList [build_A1; build_A2])])
       else if String.eqb text "{}" then
         Ok (PDict [])
       else Raise ValueError;
     Jenkins.urijoin := fun parts =>
       join "/" (map (fun part => match part with
                                  | PStr s => s
                                  | _ => "?"
                                  end) parts);
     Jenkins.repr := fun _ => "<object>" |}.

(** The node that lists [A], [B], [C], [D], read without credentials. *)
Definition ci : Jenkins.Backend :=
  jenkins_backend "https://ci.example.org" None None None.

(** A node that lists [A], [E], [A]. *)
Definition old_ci : Jenkins.Backend :=
  jenkins_backend "https://old.example.org" None None None.

(** The first node again, with job [A] on the deny-list. *)
Definition ci_without_A : Jenkins.Backend :=
  jenkins_backend "https://ci.example.org" None None (Some ["A"]).

Definition client_of (self : Jenkins.Backend) : Jenkins.JenkinsClient :=
  Jenkins.JenkinsClient__init__ (Jenkins.url self) (Jenkins.user self)
    (Jenkins.api_token self) (Jenkins.blacklist_ids self) Jenkins.DETAIL_DEPTH
    Jenkins.SLEEP_TIME None false.

End Samples.

(** * Properties *)

Local Open Scope list_scope.

(** ** Generators *)

Lemma and_then_finish (w : World) (k : World -> Run) :
  and_then (finish w) k = k w.
Proof. unfold and_then, finish, yield_all. simpl. destruct (k w); reflexivity. Qed.

Lemma and_then_yield_all (items : list value) (r : Run) (k : World -> Run) :
  and_then (yield_all items r) k = yield_all items (and_then r k).
Proof.
  destruct r as [ys [u|e] w]; unfold and_then, yield_all; simpl.
  - rewrite app_assoc. reflexivity.
  - reflexivity.
Qed.

(** ** Strings *)

Lemma lstrip_blank (s : string) :
  lstrip s = "" <-> forallb isspace (list_ascii_of_string s) = true.
Proof.
  induction s as [|c s IH]; simpl.
  - tauto.
  - destruct (isspace c); simpl.
    + exact IH.
    + split; discriminate.
Qed.

Lemma lstrip_head (s : string) (c : ascii) (rest : string) :
  lstrip s = String c rest -> isspace c = false.
Proof.
  induction s as [|d s IH]; simpl.
  - discriminate.
  - destruct (isspace d) eqn:Hd.
    + exact IH.
    + intros H. inversion H. subst. exact Hd.
Qed.

(** [k.strip() == ""] holds exactly for the keywords made of whitespace. *)
Lemma strip_blank (s : string) :
  strip s = "" <-> forallb isspace (list_ascii_of_string s) = true.
Proof.
  unfold strip. rewrite <- lstrip_blank.
  destruct (lstrip s) as [|c rest] eqn:E.
  - simpl. tauto.
  - apply lstrip_head in E. simpl. rewrite E. simpl.
    split; discriminate.
Qed.

(** ** googlehits.py *)

Section GoogleHitsProperties.

Context {env : GoogleHits.Collaborators}.

Lemma parse_hits_found (self : GoogleHits.Backend) (hit_raw text id : string) :
  GoogleHits.find_resultStats hit_raw = Some text ->
  GoogleHits.uuid (GoogleHits.id_args self GoogleHits.utcnow_timestamp) = Ok id ->
  GoogleHits.__parse_hits self hit_raw =
    if String.eqb (GoogleHits.remove_separators text) "" then
      Ok (PDict (dict_set (GoogleHits.hits_json self id) "hits" (PInt 0)))
    else
      match re_search_digits (GoogleHits.remove_separators text) with
      | Some m =>
          if int_too_long GoogleHits.int_max_str_digits m then Raise ValueError
          else Ok (PDict (dict_set (GoogleHits.hits_json self id) "hits"
                            (PInt (int_of_digits m))))
      | None => Raise AttributeError
      end.
Proof.
  intros Hfind Hid. unfold GoogleHits.__parse_hits.
  rewrite Hfind. cbn [bind]. rewrite Hid. cbn [bind].
  destruct (String.eqb _ ""); [reflexivity|].
  destruct (re_search_digits _) as [m|]; [|reflexivity].
  cbn [bind]. unfold int_of_str.
  destruct (int_too_long GoogleHits.int_max_str_digits m); reflexivity.
Qed.

Lemma parse_hits_not_found (self : GoogleHits.Backend) (hit_raw : string) :
  GoogleHits.find_resultStats hit_raw = None ->
  GoogleHits.__parse_hits self hit_raw = Raise AttributeError.
Proof.
  intros Hfind. unfold GoogleHits.__parse_hits. rewrite Hfind. reflexivity.
Qed.

Lemma hits_json_lookup (self : GoogleHits.Backend) (id : string) (n : Z) :
  getitem (PDict (dict_set (GoogleHits.hits_json self id) "hits" (PInt n))) "hits"
  = Ok (PInt n).
Proof. reflexivity. Qed.

Lemma fetch_items_parsed (self : GoogleHits.Backend) (c : HttpClient)
    (category : string) (w : World) (hit_raw : string) :
  GoogleHits.client self = Some c ->
  GoogleHits.http_fetch c (GoogleHits.hits_request (GoogleHits.keywords self))
    = Ok hit_raw ->
  GoogleHits.fetch_items self category w =
    let w1 := log_request (GoogleHits.hits_request (GoogleHits.keywords self)) w in
    match GoogleHits.__parse_hits self hit_raw with
    | Raise e => abort e w1
    | Ok item => yield_all [item] (finish w1)
    end.
Proof.
  intros Hc Hfetch. unfold GoogleHits.fetch_items, GoogleHits.hits, GoogleHits.fetch_text.
  rewrite Hc, Hfetch. reflexivity.
Qed.

(** Whatever the collaborators do, a run of [fetch_items] either completes
    after exactly one item or raises before the first one. *)
Lemma fetch_items_one_or_none (self : GoogleHits.Backend) (category : string)
    (w : World) :
  let run := GoogleHits.fetch_items self category w in
  (ending run = Ok tt /\ exists item, yielded run = [item])
  \/ (exists e, ending run = Raise e /\ yielded run = []).
Proof.
  unfold GoogleHits.fetch_items, GoogleHits.hits, GoogleHits.fetch_text. cbv zeta.
  destruct (GoogleHits.client self) as [c|]; [|right; eexists; split; reflexivity].
  destruct (GoogleHits.http_fetch c _) as [raw|e];
    [|right; eexists; split; reflexivity].
  destruct (GoogleHits.__parse_hits self raw) as [item|e].
  - left. split; [reflexivity|]. exists item. reflexivity.
  - right. eexists; split; reflexivity.
Qed.

(** C2 (amended): when the div with id [resultStats] is present and its
    text is empty once commas and dots are removed, [__parse_hits] returns
    an item whose [hits] is 0 and the fetch yields it (the item id being
    computable); when the div is absent, [__parse_hits] raises
    [AttributeError] and the fetch aborts without an item. *)
Theorem parse_hits_marker_policy (self : GoogleHits.Backend) (c : HttpClient)
    (category : string) (w : World) (hit_raw : string) :
  GoogleHits.client self = Some c ->
  GoogleHits.http_fetch c (GoogleHits.hits_request (GoogleHits.keywords self))
    = Ok hit_raw ->
  let w1 := log_request (GoogleHits.hits_request (GoogleHits.keywords self)) w in
  (forall text id,
      GoogleHits.find_resultStats hit_raw = Some text ->
      GoogleHits.remove_separators text = "" ->
      GoogleHits.uuid (GoogleHits.id_args self GoogleHits.utcnow_timestamp) = Ok id ->
      exists item,
        GoogleHits.__parse_hits self hit_raw = Ok item
        /\ getitem item "hits" = Ok (PInt 0)
        /\ GoogleHits.fetch_items self category w = yield_all [item] (finish w1))
  /\ (GoogleHits.find_resultStats hit_raw = None ->
      GoogleHits.__parse_hits self hit_raw = Raise AttributeError
      /\ GoogleHits.fetch_items self category w = abort AttributeError w1).
Proof.
  intros Hc Hfetch w1. split.
  - intros text id Hfind Hempty Hid.
    pose proof (parse_hits_found self hit_raw text id Hfind Hid) as Hparse.
    rewrite Hempty in Hparse. cbn [String.eqb] in Hparse.
    eexists. split; [exact Hparse|]. split; [apply hits_json_lookup|].
    rewrite (fetch_items_parsed self c category w hit_raw Hc Hfetch).
    cbv zeta. rewrite Hparse. reflexivity.
  - intros Hfind.
    pose proof (parse_hits_not_found self hit_raw Hfind) as Hparse.
    split; [exact Hparse|].
    rewrite (fetch_items_parsed self c category w hit_raw Hc Hfetch).
    cbv zeta. rewrite Hparse. reflexivity.
Qed.

Lemma parse_hits_ok_iff (self : GoogleHits.Backend) (hit_raw : string) :
  (exists item, GoogleHits.__parse_hits self hit_raw = Ok item)
  <-> exists text id,
        GoogleHits.find_resultStats hit_raw = Some text
        /\ GoogleHits.uuid (GoogleHits.id_args self GoogleHits.utcnow_timestamp)
           = Ok id
        /\ (GoogleHits.remove_separators text = ""
            \/ exists m,
                 re_search_digits (GoogleHits.remove_separators text) = Some m
                 /\ int_too_long GoogleHits.int_max_str_digits m = false).
Proof.
  split.
  - intros [item Hitem].
    destruct (GoogleHits.find_resultStats hit_raw) as [text|] eqn:Hfind;
      [|rewrite (parse_hits_not_found self hit_raw Hfind) in Hitem; discriminate].
    destruct (GoogleHits.uuid
                (GoogleHits.id_args self GoogleHits.utcnow_timestamp))
      as [id|e] eqn:Hid.
    + exists text, id. split; [reflexivity|]. split; [reflexivity|].
      rewrite (parse_hits_found self hit_raw text id Hfind Hid) in Hitem.
      destruct (String.eqb (GoogleHits.remove_separators text) "") eqn:E.
      * left. apply String.eqb_eq. exact E.
      * right.
        destruct (re_search_digits (GoogleHits.remove_separators text)) as [m|];
          [|discriminate].
        exists m. split; [reflexivity|].
        destruct (int_too_long GoogleHits.int_max_str_digits m);
          [discriminate | reflexivity].
    + unfold GoogleHits.__parse_hits in Hitem. rewrite Hfind in Hitem.
      cbn [bind] in Hitem. rewrite Hid in Hitem. discriminate.
  - intros [text [id [Hfind [Hid Hcount]]]].
    rewrite (parse_hits_found self hit_raw text id Hfind Hid).
    destruct (String.eqb (GoogleHits.remove_separators text) "") eqn:E;
      [eexists; reflexivity|].
    apply String.eqb_neq in E.
    destruct Hcount as [Hempty | [m [Hm Hlen]]]; [contradiction|].
    rewrite Hm, Hlen. eexists. reflexivity.
Qed.

(** C4 (amended): one call of [GoogleHits.fetch_items] never yields more
    than one item: either it yields exactly one and completes, or it yields
    none and raises.  It yields its one item exactly when the request is
    answered, the marker is present, [uuid] returns an id and the marker
    text is empty once commas and dots are removed or holds a run of digits
    that [int] accepts.  This includes the page that reports no data by an
    empty marker, for which a zero-count item is yielded rather than
    nothing. *)
Theorem fetch_items_one_item_iff (self : GoogleHits.Backend) (c : HttpClient)
    (category : string) (w : World) :
  GoogleHits.client self = Some c ->
  let run := GoogleHits.fetch_items self category w in
  let one_item item := yielded run = [item] /\ ending run = Ok tt in
  ((exists item, one_item item)
   \/ (exists e, yielded run = [] /\ ending run = Raise e))
  /\ ((exists item, one_item item)
      <-> exists hit_raw text id,
            GoogleHits.http_fetch c
              (GoogleHits.hits_request (GoogleHits.keywords self)) = Ok hit_raw
            /\ GoogleHits.find_resultStats hit_raw = Some text
            /\ GoogleHits.uuid
                 (GoogleHits.id_args self GoogleHits.utcnow_timestamp) = Ok id
            /\ (GoogleHits.remove_separators text = ""
                \/ exists m,
                     re_search_digits (GoogleHits.remove_separators text)
                     = Some m
                     /\ int_too_long GoogleHits.int_max_str_digits m = false))
  /\ (forall hit_raw text id,
        GoogleHits.http_fetch c
          (GoogleHits.hits_request (GoogleHits.keywords self)) = Ok hit_raw ->
        GoogleHits.find_resultStats hit_raw = Some text ->
        GoogleHits.uuid (GoogleHits.id_args self GoogleHits.utcnow_timestamp)
          = Ok id ->
        GoogleHits.remove_separators text = "" ->
        exists item, one_item item /\ getitem item "hits" = Ok (PInt 0)).
Proof.
  intros Hc. cbv zeta.
  destruct (GoogleHits.http_fetch c
              (GoogleHits.hits_request (GoogleHits.keywords self)))
    as [raw|e] eqn:Hfetch.
  - rewrite (fetch_items_parsed self c category w raw Hc Hfetch). cbv zeta.
    pose proof (parse_hits_ok_iff self raw) as Hiff.
    destruct (GoogleHits.__parse_hits self raw) as [item|e] eqn:Hparse.
    + split; [left; exists item; split; reflexivity|]. split.
      * split.
        -- intros _. destruct (proj1 Hiff (ex_intro _ item eq_refl))
             as [text [id H]].
           exists raw, text, id. split; [reflexivity | exact H].
        -- intros _. exists item. split; reflexivity.
      * intros raw' text id Hraw Hfind Hid Hempty. injection Hraw as <-.
        pose proof (parse_hits_found self raw text id Hfind Hid) as Hzero.
        rewrite Hempty in Hzero. cbn [String.eqb] in Hzero.
        rewrite Hparse in Hzero. injection Hzero as ->.
        eexists. split; [split; reflexivity | apply hits_json_lookup].
    + split; [right; exists e; split; reflexivity|]. split.
      * split.
        -- intros [item [H _]]. discriminate.
        -- intros [raw' [text [id [Hraw H]]]]. injection Hraw as <-.
           destruct (proj2 Hiff (ex_intro _ text (ex_intro _ id H)))
             as [item Hitem].
           discriminate.
      * intros raw' text id Hraw Hfind Hid Hempty. injection Hraw as <-.
        pose proof (parse_hits_found self raw text id Hfind Hid) as Hzero.
        rewrite Hempty in Hzero. cbn [String.eqb] in Hzero.
        rewrite Hparse in Hzero. discriminate.
  - assert (Hrun : GoogleHits.fetch_items self category w
                   = abort e
                       (log_request
                          (GoogleHits.hits_request (GoogleHits.keywords self))
                          w)).
    { unfold GoogleHits.fetch_items, GoogleHits.hits, GoogleHits.fetch_text.
      rewrite Hc, Hfetch. reflexivity. }
    rewrite Hrun. split; [right; exists e; split; reflexivity|]. split.
    + split.
      * intros [item [H _]]. discriminate.
      * intros [raw [text [id [Hraw _]]]]. discriminate.
    + intros raw text id Hraw. discriminate.
Qed.

(** C8 (amended): with the query ["rust"; "programming"] and a page whose
    marker text is "12,345 results", the fetch yields exactly one item; its
    category is "google_hits" and its [hits] is the integer 12345, read from
    the first run of digits left once the separators are removed. *)
Theorem fetch_items_rust_programming (self : GoogleHits.Backend) (c : HttpClient)
    (category : string) (w : World) (hit_raw id : string) :
  GoogleHits.keywords self = ["rust"; "programming"] ->
  GoogleHits.client self = Some c ->
  GoogleHits.http_fetch c (GoogleHits.hits_request ["rust"; "programming"])
    = Ok hit_raw ->
  GoogleHits.find_resultStats hit_raw = Some "12,345 results" ->
  GoogleHits.uuid (GoogleHits.id_args self GoogleHits.utcnow_timestamp) = Ok id ->
  exists item,
    GoogleHits.fetch_items self category w =
      {| yielded := [item]; ending := Ok tt;
         world := log_request (GoogleHits.hits_request ["rust"; "programming"]) w |}
    /\ GoogleHits.metadata_category item = "google_hits"
    /\ getitem item "hits" = Ok (PInt 12345)
    /\ re_search_digits (GoogleHits.remove_separators "12,345 results")
       = Some "12345".
Proof.
  intros Hk Hc Hfetch Hfind Hid. rewrite <- Hk in Hfetch.
  rewrite (fetch_items_parsed self c category w hit_raw Hc Hfetch). cbv zeta.
  rewrite (parse_hits_found self hit_raw _ id Hfind Hid). rewrite Hk.
  eexists. split; [reflexivity|]. split; [reflexivity|].
  split; reflexivity.
Qed.

End GoogleHitsProperties.

(** C2, witness: the page with an empty marker parses to a zero count, the
    page without the marker aborts the fetch. *)
Lemma parse_hits_marker_policy_witness :
  (exists item,
      GoogleHits.__parse_hits (env := Samples.google) (Samples.google_backend [])
        Samples.page_empty = Ok item
      /\ getitem item "hits" = Ok (PInt 0))
  /\ GoogleHits.fetch_items (env := Samples.google)
       (Samples.google_backend ["perceval"]) "google_hits" Samples.fresh
     = abort AttributeError
         (log_request (GoogleHits.hits_request ["perceval"]) Samples.fresh).
Proof.
  split.
  - destruct (parse_hits_marker_policy (env := Samples.google)
                (Samples.google_backend []) _ "google_hits" Samples.fresh
                Samples.page_empty eq_refl eq_refl) as [Hzero _].
    destruct (Hzero "" "1546300800.0" eq_refl eq_refl eq_refl)
      as [item [Hparse [Hhits _]]].
    exists item. split; assumption.
  - destruct (parse_hits_marker_policy (env := Samples.google)
                (Samples.google_backend ["perceval"]) _ "google_hits"
                Samples.fresh Samples.page_captcha eq_refl eq_refl)
      as [_ Habsent].
    exact (proj2 (Habsent eq_refl)).
Defined.

(** C2, counterexample: a marker whose text is "No results" is present and
    holds no digit, yet parsing raises instead of returning a zero count. *)
Lemma parse_hits_no_digits_raises :
  GoogleHits.find_resultStats (Collaborators := Samples.google)
    Samples.page_no_results = Some "No results"
  /\ re_search_digits "No results" = None
  /\ GoogleHits.__parse_hits (env := Samples.google)
       (Samples.google_backend ["qwertzuiop"]) Samples.page_no_results
     = Raise AttributeError
  /\ GoogleHits.fetch_items (env := Samples.google)
       (Samples.google_backend ["qwertzuiop"]) "google_hits" Samples.fresh
     = abort AttributeError
         (log_request (GoogleHits.hits_request ["qwertzuiop"]) Samples.fresh).
Proof. repeat split; reflexivity. Qed.

(** C4, witness: the empty query is answered with an empty marker and
    yields its one item, with a zero count. *)
Lemma fetch_items_one_item_iff_witness :
  exists item,
    yielded (GoogleHits.fetch_items (env := Samples.google)
               (Samples.google_backend []) "google_hits" Samples.fresh) = [item]
    /\ ending (GoogleHits.fetch_items (env := Samples.google)
                 (Samples.google_backend []) "google_hits" Samples.fresh) = Ok tt
    /\ getitem item "hits" = Ok (PInt 0).
Proof.
  destruct (proj2 (proj2 (fetch_items_one_item_iff (env := Samples.google)
                            (Samples.google_backend []) _ "google_hits"
                            Samples.fresh eq_refl))
              Samples.page_empty "" "1546300800.0"
              eq_refl eq_refl eq_refl eq_refl)
    as [item [[Hitems Hend] Hzero]].
  exists item. split; [exact Hitems|]. split; [exact Hend | exact Hzero].
Defined.

(** C4, counterexample: the query ["qwertzuiop"] is accepted by [__init__];
    the page that answers it reports no data by the text "No results", and
    the fetch yields no item. *)
Lemma fetch_items_no_results_no_item :
  exists self,
    GoogleHits.__init__ ["qwertzuiop"] None None GoogleHits.MAX_RETRIES
      GoogleHits.DEFAULT_SLEEP_TIME = Ok self
    /\ GoogleHits.find_resultStats (Collaborators := Samples.google)
         Samples.page_no_results = Some "No results"
    /\ yielded (GoogleHits.fetch_items (env := Samples.google)
                  (GoogleHits.set_client self
                     (GoogleHits._init_client self false))
                  "google_hits" Samples.fresh) = []
    /\ ending (GoogleHits.fetch_items (env := Samples.google)
                 (GoogleHits.set_client self
                    (GoogleHits._init_client self false))
                 "google_hits" Samples.fresh) = Raise AttributeError.
Proof. eexists. repeat split. Qed.

(** C8, witness: the sample search engine answers the query with the page
    of the example. *)
Lemma fetch_items_rust_programming_witness :
  exists item,
    yielded (GoogleHits.fetch_items (env := Samples.google)
               (Samples.google_backend ["rust"; "programming"]) "google_hits"
               Samples.fresh) = [item]
    /\ GoogleHits.metadata_category item = "google_hits"
    /\ getitem item "hits" = Ok (PInt 12345).
Proof.
  destruct (fetch_items_rust_programming (env := Samples.google)
              (Samples.google_backend ["rust"; "programming"]) _ "google_hits"
              Samples.fresh Samples.page_rust "rust:programming:1546300800.0"
              eq_refl eq_refl eq_refl eq_refl eq_refl)
    as [item [Hrun [Hcat [Hhits _]]]].
  exists item. rewrite Hrun. repeat split; assumption.
Defined.

(** C8, counterexample: the one item of the example run is not of category
    "hits". *)
Lemma fetch_items_category_not_hits :
  exists item,
    yielded (GoogleHits.fetch_items (env := Samples.google)
               (Samples.google_backend ["rust"; "programming"]) "google_hits"
               Samples.fresh) = [item]
    /\ getitem item "hits" = Ok (PInt 12345)
    /\ GoogleHits.metadata_category item <> "hits".
Proof.
  eexists. split; [reflexivity|]. split; [reflexivity|]. discriminate.
Qed.

(** C5 (amended): [GoogleHits.__init__] raises [BackendError] exactly for a
    list of one keyword made of whitespace only (the empty keyword
    included); every other list, the empty one and lists of several blank
    keywords among them, gives a connector that holds the keywords
    unchanged and no client yet. *)
Theorem init_rejects_single_blank_keyword (keywords : list string)
    (tag archive : option string) (max_retries sleep_time : Z) :
  (GoogleHits.__init__ keywords tag archive max_retries sleep_time
     = Raise (BackendError "No keywords provided")
   <-> exists k, keywords = [k]
                 /\ forallb isspace (list_ascii_of_string k) = true)
  /\ (GoogleHits.__init__ keywords tag archive max_retries sleep_time
       = Raise (BackendError "No keywords provided")
      \/ exists self,
           GoogleHits.__init__ keywords tag archive max_retries sleep_time
             = Ok self
           /\ GoogleHits.keywords self = keywords
           /\ GoogleHits.client self = None).
Proof.
  unfold GoogleHits.__init__.
  destruct keywords as [|k [|k' rest]]; cbn [List.length Nat.eqb andb nth].
  - split.
    + split; [discriminate | intros [k [H _]]; discriminate].
    + right. eexists. repeat split.
  - destruct (String.eqb (strip k) "") eqn:E.
    + apply String.eqb_eq in E. apply strip_blank in E. split.
      * split; [|reflexivity]. intros _. exists k. split; [reflexivity|exact E].
      * left. reflexivity.
    + apply String.eqb_neq in E. split.
      * split; [discriminate|]. intros [k0 [Hk Hb]]. inversion Hk; subst.
        apply strip_blank in Hb. contradiction.
      * right. eexists. repeat split.
  - split.
    + split; [discriminate | intros [k0 [H _]]; discriminate].
    + right. eexists. repeat split.
Qed.

(** C5, counterexample: the empty list and a list of two blank keywords are
    both accepted. *)
Lemma init_accepts_empty_and_blank_lists :
  (exists self,
      GoogleHits.__init__ [] None None GoogleHits.MAX_RETRIES
        GoogleHits.DEFAULT_SLEEP_TIME = Ok self
      /\ GoogleHits.keywords self = [])
  /\ (exists self,
        GoogleHits.__init__ [""; "  "] None None GoogleHits.MAX_RETRIES
          GoogleHits.DEFAULT_SLEEP_TIME = Ok self
        /\ GoogleHits.keywords self = [""; "  "]).
Proof. split; eexists; split; reflexivity. Qed.

(** ** jenkins.py *)

Section JenkinsProperties.

Context {env : Jenkins.Collaborators}.

Lemma get_builds_eq (c : Jenkins.JenkinsClient) (job_name : value) (w : World) :
  Jenkins.get_builds c job_name w
  = (Jenkins.builds_payload c job_name, Jenkins.after_get_builds c job_name w).
Proof.
  unfold Jenkins.get_builds, Jenkins.builds_payload, Jenkins.after_get_builds,
    Jenkins.fetch_text.
  destruct (Jenkins.blacklisted c job_name); reflexivity.
Qed.

(** One turn of the loop, read off the branch of its job. *)
Lemma loop_step (c : Jenkins.JenkinsClient) (job : value) (rest : list value)
    (w : World) :
  Jenkins.fetch_items_loop c (job :: rest) w =
    match Jenkins.branch c job with
    | Jenkins.Fatal e => abort e (Jenkins.after_job c job w)
    | Jenkins.Builds items =>
        yield_all items (Jenkins.fetch_items_loop c rest (Jenkins.after_job c job w))
    | _ => Jenkins.fetch_items_loop c rest (skip_one (Jenkins.after_job c job w))
    end.
Proof.
  cbn [Jenkins.fetch_items_loop]. unfold Jenkins.branch, Jenkins.after_job.
  destruct (_ <- getitem job "url" ;; getitem job "name") as [job_name|e];
    [|reflexivity].
  rewrite get_builds_eq. unfold Jenkins.branch_of_payload.
  destruct (Jenkins.builds_payload c job_name) as [[text|]|e].
  - unfold truthy. destruct (String.eqb text ""); cbn [negb]; [reflexivity|].
    destruct (Jenkins.json_loads text) as [payload|e].
    + destruct (builds <- getitem payload "builds" ;; iter builds); reflexivity.
    + destruct e; reflexivity.
  - reflexivity.
  - destruct e; try reflexivity.
    destruct (status_code =? 500); reflexivity.
Qed.

Lemma loop_app (c : Jenkins.JenkinsClient) (pre post : list value) (w : World) :
  Jenkins.fetch_items_loop c (pre ++ post) w
  = and_then (Jenkins.fetch_items_loop c pre w) (Jenkins.fetch_items_loop c post).
Proof.
  revert w. induction pre as [|job pre IH]; intros w.
  - cbn [app Jenkins.fetch_items_loop]. rewrite and_then_finish. reflexivity.
  - rewrite <- app_comm_cons. rewrite !loop_step.
    destruct (Jenkins.branch c job); rewrite ?IH, ?and_then_yield_all;
      reflexivity.
Qed.

Lemma fetch_items_eq (self : Jenkins.Backend) (c : Jenkins.JenkinsClient)
    (category : string) (w : World) :
  Jenkins.client self = Some c ->
  Jenkins.fetch_items self category w =
    match Jenkins.job_listing c with
    | Raise e => abort e (log_request (Jenkins.jobs_request c) w)
    | Ok jobs =>
        Jenkins.fetch_items_loop c jobs (log_request (Jenkins.jobs_request c) w)
    end.
Proof.
  intros Hc. unfold Jenkins.fetch_items, Jenkins.get_jobs, Jenkins.fetch_text,
    Jenkins.job_listing.
  rewrite Hc. reflexivity.
Qed.

Lemma after_job_skipped (c : Jenkins.JenkinsClient) (job : value) (w : World) :
  summary_skipped (Jenkins.after_job c job w) = summary_skipped w.
Proof.
  unfold Jenkins.after_job, Jenkins.after_get_builds.
  destruct (_ <- getitem job "url" ;; getitem job "name") as [job_name|e];
    [|reflexivity].
  destruct (Jenkins.blacklisted c job_name); reflexivity.
Qed.

Lemma after_job_requests (c : Jenkins.JenkinsClient) (job : value) (w : World) :
  exists new,
    requests (Jenkins.after_job c job w) = requests w ++ new
    /\ Forall (Jenkins.allowed_request c) new.
Proof.
  unfold Jenkins.after_job, Jenkins.after_get_builds.
  destruct (_ <- getitem job "url" ;; getitem job "name") as [job_name|e].
  - destruct (Jenkins.blacklisted c job_name) eqn:E.
    + exists []. rewrite app_nil_r. split; [reflexivity|constructor].
    + exists [Jenkins.builds_request c job_name]. split; [reflexivity|].
      constructor; [|constructor]. right. exists job_name. split; [exact E|reflexivity].
  - exists []. rewrite app_nil_r. split; [reflexivity|constructor].
Qed.

(** Every request the walk sends is an allowed one. *)
Lemma loop_requests (c : Jenkins.JenkinsClient) (jobs : list value) (w : World) :
  exists new,
    requests (world (Jenkins.fetch_items_loop c jobs w)) = requests w ++ new
    /\ Forall (Jenkins.allowed_request c) new.
Proof.
  revert w. induction jobs as [|job rest IH]; intros w.
  - exists []. rewrite app_nil_r. split; [reflexivity|constructor].
  - rewrite loop_step.
    destruct (after_job_requests c job w) as [new1 [H1 F1]].
    assert (Hrest : forall w', requests w' = requests (Jenkins.after_job c job w) ->
              exists new,
                requests (world (Jenkins.fetch_items_loop c rest w'))
                = requests w ++ new
                /\ Forall (Jenkins.allowed_request c) new).
    { intros w' Hw'. destruct (IH w') as [new2 [H2 F2]].
      exists (new1 ++ new2). rewrite H2, Hw', H1, app_assoc.
      split; [reflexivity|]. apply Forall_app. split; assumption. }
    destruct (Jenkins.branch c job);
      try (apply Hrest; reflexivity).
    exists new1. split; assumption.
Qed.

Lemma fetch_items_requests (self : Jenkins.Backend) (c : Jenkins.JenkinsClient)
    (category : string) (w : World) :
  Jenkins.client self = Some c ->
  exists new,
    requests (world (Jenkins.fetch_items self category w)) = requests w ++ new
    /\ Forall (Jenkins.allowed_request c) new.
Proof.
  intros Hc. rewrite (fetch_items_eq self c category w Hc).
  assert (Hone : Forall (Jenkins.allowed_request c) [Jenkins.jobs_request c]).
  { constructor; [left; reflexivity|constructor]. }
  destruct (Jenkins.job_listing c) as [jobs|e].
  - destruct (loop_requests c jobs (log_request (Jenkins.jobs_request c) w))
      as [new [H F]].
    exists ([Jenkins.jobs_request c] ++ new). rewrite H. cbn [requests log_request].
    rewrite <- app_assoc. split; [reflexivity|].
    apply Forall_app. split; assumption.
  - exists [Jenkins.jobs_request c]. split; [reflexivity|exact Hone].
Qed.

Lemma allowed_request_auth (c : Jenkins.JenkinsClient) (r : Request) :
  Jenkins.allowed_request c r -> req_auth r = Jenkins.auth c.
Proof.
  intros [H | [job_name [_ H]]]; subst; reflexivity.
Qed.

(** Every request of a fetch carries the [auth] of the client. *)
Lemma fetch_items_auth (self : Jenkins.Backend) (c : Jenkins.JenkinsClient)
    (category : string) (w : World) :
  Jenkins.client self = Some c ->
  exists new,
    requests (world (Jenkins.fetch_items self category w)) = requests w ++ new
    /\ new <> []
    /\ Forall (fun r => req_auth r = Jenkins.auth c) new.
Proof.
  intros Hc.
  destruct (fetch_items_requests self c category w Hc) as [new [H F]].
  exists new. split; [exact H|]. split.
  - intros Hnil. subst new. rewrite app_nil_r in H.
    rewrite (fetch_items_eq self c category w Hc) in H.
    destruct (Jenkins.job_listing c) as [jobs|e].
    + destruct (loop_requests c jobs (log_request (Jenkins.jobs_request c) w))
        as [new' [H' _]].
      rewrite H' in H. cbn [requests log_request] in H.
      rewrite <- app_assoc in H. rewrite <- (app_nil_r (requests w)) in H at 2.
      apply app_inv_head in H. discriminate.
    + cbn [world abort requests log_request] in H.
      rewrite <- (app_nil_r (requests w)) in H at 2.
      apply app_inv_head in H. discriminate.
  - eapply Forall_impl; [|exact F]. intros r. apply allowed_request_auth.
Qed.

(** C1: when asking for the builds of a job raises an HTTP error, the walk
    has come to that job after completing the jobs before it.  With status
    500 the job yields nothing, the skipped counter grows by one and the
    walk goes on with the jobs after it; with any other status the error
    leaves [fetch_items] at that point and no later job is visited. *)
Theorem fetch_items_http_error (self : Jenkins.Backend) (c : Jenkins.JenkinsClient)
    (category : string) (w : World) (pre : list value) (job : value)
    (post : list value) (u job_name : value) (status_code : Z) (w_err : World) :
  Jenkins.client self = Some c ->
  Jenkins.job_listing c = Ok (pre ++ job :: post) ->
  let before :=
    Jenkins.fetch_items_loop c pre (log_request (Jenkins.jobs_request c) w) in
  ending before = Ok tt ->
  getitem job "url" = Ok u ->
  getitem job "name" = Ok job_name ->
  Jenkins.get_builds c job_name (world before)
    = (Raise (HTTPError status_code), w_err) ->
  (status_code = 500 ->
     Jenkins.fetch_items self category w
       = yield_all (yielded before)
           (Jenkins.fetch_items_loop c post (skip_one w_err))
     /\ summary_skipped (skip_one w_err) = summary_skipped (world before) + 1)
  /\ (status_code <> 500 ->
      Jenkins.fetch_items self category w
        = yield_all (yielded before) (abort (HTTPError status_code) w_err)).
Proof.
  intros Hc Hjobs before Hbefore Hurl Hname Hget.
  rewrite (fetch_items_eq self c category w Hc), Hjobs, loop_app.
  fold before. unfold and_then. rewrite Hbefore.
  cbn [Jenkins.fetch_items_loop]. rewrite Hurl. cbn [bind]. rewrite Hname, Hget.
  split.
  - intros ->. cbn [Z.eqb Pos.eqb]. split; [reflexivity|].
    rewrite get_builds_eq in Hget. inversion Hget as [[Hpayload Hw]].
    unfold Jenkins.after_get_builds.
    destruct (Jenkins.blacklisted c job_name); reflexivity.
  - intros Hother. apply Z.eqb_neq in Hother. rewrite Hother. reflexivity.
Qed.

Lemma loop_completes (c : Jenkins.JenkinsClient) (jobs : list value) (w : World) :
  (forall job, In job jobs -> Jenkins.is_fatal (Jenkins.branch c job) = false) ->
  let run := Jenkins.fetch_items_loop c jobs w in
  ending run = Ok tt
  /\ yielded run
     = flat_map (fun job => Jenkins.branch_items (Jenkins.branch c job)) jobs
  /\ summary_skipped (world run)
     = summary_skipped w
       + Z.of_nat (List.length
                     (filter (fun job => Jenkins.is_skipped (Jenkins.branch c job))
                        jobs)).
Proof.
  revert w. induction jobs as [|job rest IH]; intros w Hfine; cbv zeta.
  - cbn. repeat split. lia.
  - assert (Hjob := Hfine job (or_introl eq_refl)).
    assert (Hrest : forall j, In j rest ->
              Jenkins.is_fatal (Jenkins.branch c j) = false).
    { intros j Hj. apply Hfine. right. exact Hj. }
    rewrite loop_step. cbn [flat_map filter].
    destruct (Jenkins.branch c job) eqn:E; cbn [Jenkins.is_fatal] in Hjob;
      try discriminate;
      cbn [Jenkins.is_skipped Jenkins.branch_items app List.length].
    1-3: destruct (IH (skip_one (Jenkins.after_job c job w)) Hrest)
           as [H1 [H2 H3]];
         repeat split; [exact H1 | exact H2 |];
         rewrite H3; cbn [summary_skipped skip_one];
         rewrite after_job_skipped; lia.
    destruct (IH (Jenkins.after_job c job w) Hrest) as [H1 [H2 H3]].
    cbn [yield_all ending yielded world]. repeat split.
    + exact H1.
    + rewrite H2. reflexivity.
    + rewrite H3, after_job_skipped. reflexivity.
Qed.


Lemma blacklisted_iff (c : Jenkins.JenkinsClient) (job_name : value) :
  Jenkins.blacklisted c job_name = true
  <-> exists l s,
        Jenkins.blacklist_jobs c = Some l /\ job_name = PStr s /\ In s l.
Proof.
  unfold Jenkins.blacklisted, contains. split.
  - destruct (Jenkins.blacklist_jobs c) as [l|]; [|discriminate].
    intros H. apply andb_prop in H. destruct H as [_ H].
    destruct job_name; try discriminate.
    apply existsb_exists in H. destruct H as [x [Hin Heq]].
    apply String.eqb_eq in Heq. subst x. exists l, s. repeat split. exact Hin.
  - intros [l [s [Hl [Hs Hin]]]]. rewrite Hl. subst job_name.
    apply andb_true_intro. split.
    + destruct l; [destruct Hin | reflexivity].
    + apply existsb_exists. exists s. split; [exact Hin|apply String.eqb_refl].
Qed.

Lemma after_job_denied (c : Jenkins.JenkinsClient) (job : value) (w : World) :
  Jenkins.denied c job = true ->
  Jenkins.branch c job = Jenkins.NoData /\ Jenkins.after_job c job w = w.
Proof.
  unfold Jenkins.denied, Jenkins.branch, Jenkins.after_job,
    Jenkins.builds_payload, Jenkins.after_get_builds.
  destruct (_ <- getitem job "url" ;; getitem job "name") as [job_name|e];
    [|discriminate].
  intros ->. split; reflexivity.
Qed.

Lemma after_job_same_requests (c : Jenkins.JenkinsClient) (job : value)
    (w w' : World) :
  requests w = requests w' ->
  requests (Jenkins.after_job c job w) = requests (Jenkins.after_job c job w').
Proof.
  intros H. unfold Jenkins.after_job, Jenkins.after_get_builds.
  destruct (_ <- getitem job "url" ;; getitem job "name") as [job_name|e];
    [|exact H].
  destruct (Jenkins.blacklisted c job_name); [exact H|].
  cbn [requests log_request]. rewrite H. reflexivity.
Qed.

(** Leaving the denied jobs out of the listing changes neither the items
    yielded, nor the way the walk ends, nor the requests sent. *)
Lemma loop_without_denied (c : Jenkins.JenkinsClient) (jobs : list value)
    (w w' : World) :
  requests w = requests w' ->
  let run := Jenkins.fetch_items_loop c jobs w in
  let run' :=
    Jenkins.fetch_items_loop c
      (filter (fun job => negb (Jenkins.denied c job)) jobs) w' in
  yielded run = yielded run'
  /\ ending run = ending run'
  /\ requests (world run) = requests (world run').
Proof.
  revert w w'. induction jobs as [|job rest IH]; intros w w' Hw; cbv zeta.
  - cbn. repeat split. exact Hw.
  - cbn [filter]. destruct (Jenkins.denied c job) eqn:Hd; cbn [negb].
    + destruct (after_job_denied c job w Hd) as [Hb Ha].
      rewrite loop_step, Hb, Ha. apply IH. exact Hw.
    + rewrite !loop_step.
      pose proof (after_job_same_requests c job w w' Hw) as Hafter.
      destruct (Jenkins.branch c job).
      1-3: apply IH; exact Hafter.
      * destruct (IH _ _ Hafter) as [H1 [H2 H3]].
        cbn [yield_all yielded ending world]. rewrite H1. repeat split; assumption.
      * cbn. repeat split. exact Hafter.
Qed.

(** C7: asking for the builds of a job whose name is on the deny-list
    returns no data and sends no request; a walk gives the items, the
    ending and the requests it would give without the denied jobs in the
    listing; and every request of a fetch is the job listing or asks for
    the builds of a name that is not on the deny-list. *)
Theorem blacklisted_job_not_fetched (c : Jenkins.JenkinsClient) :
  (forall l job_name w,
      Jenkins.blacklist_jobs c = Some l ->
      In job_name l ->
      Jenkins.get_builds c (PStr job_name) w = (Ok None, w))
  /\ (forall jobs w,
        let run := Jenkins.fetch_items_loop c jobs w in
        let run' :=
          Jenkins.fetch_items_loop c
            (filter (fun job => negb (Jenkins.denied c job)) jobs) w in
        yielded run = yielded run'
        /\ ending run = ending run'
        /\ requests (world run) = requests (world run'))
  /\ (forall self category w,
        Jenkins.client self = Some c ->
        exists new,
          requests (world (Jenkins.fetch_items self category w))
          = requests w ++ new
          /\ Forall (Jenkins.allowed_request c) new).
Proof.
  split; [|split].
  - intros l job_name w Hl Hin.
    assert (Hb : Jenkins.blacklisted c (PStr job_name) = true).
    { apply blacklisted_iff. exists l, job_name. repeat split; assumption. }
    unfold Jenkins.get_builds. rewrite Hb. reflexivity.
  - intros jobs w. apply loop_without_denied. reflexivity.
  - intros self category w Hc. apply fetch_items_requests. exact Hc.
Qed.

Lemma init_raises (url : string) (user api_token tag archive : option string)
    (detail_depth sleep_time : Z) (blacklist_ids : option (list string)) :
  truthy user <> truthy api_token ->
  Jenkins.__init__ url user api_token tag archive detail_depth sleep_time
    blacklist_ids
  = Raise (BackendError "Authentication method requires user and api_token").
Proof.
  unfold Jenkins.__init__.
  destruct (truthy user), (truthy api_token); intros H;
    try reflexivity; contradiction H; reflexivity.
Qed.

(** A connector whose two credentials agree in truth value is built, and
    every request of its fetches carries the [auth] of its client. *)
Lemma init_builds (url : string) (user api_token tag archive : option string)
    (detail_depth sleep_time : Z) (blacklist_ids : option (list string)) :
  truthy user = truthy api_token ->
  exists self,
    Jenkins.__init__ url user api_token tag archive detail_depth sleep_time
      blacklist_ids = Ok self
    /\ Jenkins.user self = user
    /\ Jenkins.api_token self = api_token
    /\ forall from_archive category w,
         exists new,
           requests
             (world (Jenkins.fetch_items
                       (Jenkins.set_client self
                          (Jenkins._init_client self from_archive))
                       category w))
           = requests w ++ new
           /\ new <> []
           /\ Forall
                (fun r =>
                   req_auth r
                   = Jenkins.auth (Jenkins._init_client self from_archive))
                new.
Proof.
  intros H. unfold Jenkins.__init__. rewrite H.
  destruct (truthy api_token); cbn [andb orb negb];
    (eexists; split; [reflexivity|]; split; [reflexivity|];
     split; [reflexivity|]; intros from_archive category w;
     apply fetch_items_auth; reflexivity).
Qed.

(** C6 (amended): [Jenkins.__init__] raises [BackendError] when exactly one
    of [user] and [api_token] is truthy (neither [None] nor empty); when
    both are truthy the connector is built and every request of its
    fetches carries the pair as [auth]; when neither is truthy the
    connector is built and its requests carry no [auth]. *)
Theorem init_auth_pair (url : string) (user api_token tag archive : option string)
    (detail_depth sleep_time : Z) (blacklist_ids : option (list string)) :
  let made :=
    Jenkins.__init__ url user api_token tag archive detail_depth sleep_time
      blacklist_ids in
  let requests_of self from_archive category w :=
    requests
      (world (Jenkins.fetch_items
                (Jenkins.set_client self (Jenkins._init_client self from_archive))
                category w)) in
  (truthy user <> truthy api_token ->
     made
     = Raise (BackendError "Authentication method requires user and api_token"))
  /\ (forall u t,
        user = Some u -> api_token = Some t -> u <> "" -> t <> "" ->
        exists self,
          made = Ok self
          /\ forall from_archive category w,
               exists new,
                 requests_of self from_archive category w = requests w ++ new
                 /\ new <> []
                 /\ Forall (fun r => req_auth r = Some (u, t)) new)
  /\ (truthy user = false -> truthy api_token = false ->
      exists self,
        made = Ok self
        /\ forall from_archive category w,
             exists new,
               requests_of self from_archive category w = requests w ++ new
               /\ new <> []
               /\ Forall (fun r => req_auth r = None) new).
Proof.
  cbv zeta. split; [|split].
  - apply init_raises.
  - intros u t Hu Ht Hne_u Hne_t.
    assert (Htu : truthy user = true).
    { subst user. cbn. apply String.eqb_neq in Hne_u. rewrite Hne_u. reflexivity. }
    assert (Htt : truthy api_token = true).
    { subst api_token. cbn. apply String.eqb_neq in Hne_t. rewrite Hne_t.
      reflexivity. }
    destruct (init_builds url user api_token tag archive detail_depth sleep_time
                blacklist_ids) as [self [Hmade [Huser [Htoken Hreq]]]].
    { rewrite Htu, Htt. reflexivity. }
    exists self. split; [exact Hmade|]. intros from_archive category w.
    destruct (Hreq from_archive category w) as [new [H1 [H2 H3]]].
    exists new. split; [exact H1|]. split; [exact H2|].
    eapply Forall_impl; [|exact H3]. intros r ->.
    unfold Jenkins._init_client, Jenkins.JenkinsClient__init__. cbn [Jenkins.auth].
    rewrite Huser, Htoken, Htu, Htt, Hu, Ht. reflexivity.
  - intros Htu Htt.
    destruct (init_builds url user api_token tag archive detail_depth sleep_time
                blacklist_ids) as [self [Hmade [Huser [Htoken Hreq]]]].
    { rewrite Htu, Htt. reflexivity. }
    exists self. split; [exact Hmade|]. intros from_archive category w.
    destruct (Hreq from_archive category w) as [new [H1 [H2 H3]]].
    exists new. split; [exact H1|]. split; [exact H2|].
    eapply Forall_impl; [|exact H3]. intros r ->.
    unfold Jenkins._init_client, Jenkins.JenkinsClient__init__. cbn [Jenkins.auth].
    rewrite Huser, Htu. reflexivity.
Qed.

(** C10: with [user] and [api_token] both the empty string,
    [Jenkins.__init__] raises nothing and builds the connector; the client
    of each of its fetches has no [auth], and no request carries one. *)
Theorem init_empty_credentials (url : string) (tag archive : option string)
    (detail_depth sleep_time : Z) (blacklist_ids : option (list string)) :
  exists self,
    Jenkins.__init__ url (Some "") (Some "") tag archive detail_depth sleep_time
      blacklist_ids = Ok self
    /\ forall from_archive category w,
         Jenkins.auth (Jenkins._init_client self from_archive) = None
         /\ exists new,
              requests
                (world (Jenkins.fetch_items
                          (Jenkins.set_client self
                             (Jenkins._init_client self from_archive))
                          category w))
              = requests w ++ new
              /\ new <> []
              /\ Forall (fun r => req_auth r = None) new.
Proof.
  destruct (init_builds url (Some "") (Some "") tag archive detail_depth
              sleep_time blacklist_ids eq_refl)
    as [self [Hmade [Huser [Htoken Hreq]]]].
  exists self. split; [exact Hmade|]. intros from_archive category w.
  assert (Hauth : Jenkins.auth (Jenkins._init_client self from_archive) = None).
  { unfold Jenkins._init_client, Jenkins.JenkinsClient__init__. cbn [Jenkins.auth].
    rewrite Huser. reflexivity. }
  split; [exact Hauth|].
  destruct (Hreq from_archive category w) as [new [H1 [H2 H3]]].
  exists new. split; [exact H1|]. split; [exact H2|].
  eapply Forall_impl; [|exact H3]. intros r ->. exact Hauth.
Qed.

End JenkinsProperties.

(** C1, witness: on the first sample node job [B] answers 500 and the walk
    goes on to [C] and [D]; on the second node job [E] answers 404 and the
    walk stops there, after the two builds of the first [A]. *)
Lemma fetch_items_http_error_witness :
  (yielded (Jenkins.fetch_items (env := Samples.jenkins) Samples.ci "build"
              Samples.fresh) = [Samples.build_A1; Samples.build_A2]
   /\ ending (Jenkins.fetch_items (env := Samples.jenkins) Samples.ci "build"
                Samples.fresh) = Ok tt
   /\ summary_skipped
        (world (Jenkins.fetch_items (env := Samples.jenkins) Samples.ci "build"
                  Samples.fresh)) = 3)
  /\ (yielded (Jenkins.fetch_items (env := Samples.jenkins) Samples.old_ci
                 "build" Samples.fresh) = [Samples.build_A1; Samples.build_A2]
      /\ ending (Jenkins.fetch_items (env := Samples.jenkins) Samples.old_ci
                   "build" Samples.fresh) = Raise (HTTPError 404)
      /\ List.length
           (requests
              (world (Jenkins.fetch_items (env := Samples.jenkins)
                        Samples.old_ci "build" Samples.fresh))) = 3%nat).
Proof.
  split.
  - destruct (fetch_items_http_error (env := Samples.jenkins) Samples.ci
                (Samples.client_of Samples.ci) "build" Samples.fresh
                [Samples.job_A] Samples.job_B [Samples.job_C; Samples.job_D]
                (PStr "https://ci.example.org/job/B/") (PStr "B") 500
                (log_request
                   (Jenkins.builds_request (env := Samples.jenkins)
                      (Samples.client_of Samples.ci) (PStr "B"))
                   (world (Jenkins.fetch_items_loop (env := Samples.jenkins)
                             (Samples.client_of Samples.ci) [Samples.job_A]
                             (log_request
                                (Jenkins.jobs_request (env := Samples.jenkins)
                                   (Samples.client_of Samples.ci))
                                Samples.fresh))))
                eq_refl eq_refl eq_refl eq_refl eq_refl eq_refl)
      as [Hskip _].
    destruct (Hskip eq_refl) as [Hrun _]. rewrite Hrun.
    repeat split.
  - destruct (fetch_items_http_error (env := Samples.jenkins) Samples.old_ci
                (Samples.client_of Samples.old_ci) "build" Samples.fresh
                [Samples.job_A] Samples.job_E [Samples.job_A]
                (PStr "https://ci.example.org/job/E/") (PStr "E") 404
                (log_request
                   (Jenkins.builds_request (env := Samples.jenkins)
                      (Samples.client_of Samples.old_ci) (PStr "E"))
                   (world (Jenkins.fetch_items_loop (env := Samples.jenkins)
                             (Samples.client_of Samples.old_ci) [Samples.job_A]
                             (log_request
                                (Jenkins.jobs_request (env := Samples.jenkins)
                                   (Samples.client_of Samples.old_ci))
                                Samples.fresh))))
                eq_refl eq_refl eq_refl eq_refl eq_refl eq_refl)
      as [_ Hstop].
    rewrite (Hstop ltac:(discriminate)).
    repeat split.
Defined.


(** C7, witness: with [A] on the deny-list, asking for its builds sends
    nothing. *)
Lemma blacklisted_job_not_fetched_witness :
  Jenkins.get_builds (env := Samples.jenkins)
    (Samples.client_of Samples.ci_without_A) (PStr "A") Samples.fresh
  = (Ok None, Samples.fresh).
Proof.
  exact (proj1 (blacklisted_job_not_fetched (env := Samples.jenkins)
                  (Samples.client_of Samples.ci_without_A))
           ["A"] "A" Samples.fresh eq_refl (or_introl eq_refl)).
Defined.

(** C6, witness: a user with a token is accepted and both travel with the
    job listing and with each request for builds. *)
Lemma init_auth_pair_witness :
  exists self,
    Jenkins.__init__ "https://ci.example.org" (Some "jdoe") (Some "s3cret")
      None None Jenkins.DETAIL_DEPTH Jenkins.SLEEP_TIME None = Ok self
    /\ exists new,
         requests
           (world (Jenkins.fetch_items (env := Samples.jenkins)
                     (Jenkins.set_client self (Jenkins._init_client self false))
                     "build" Samples.fresh))
         = requests Samples.fresh ++ new
         /\ new <> []
         /\ Forall (fun r => req_auth r = Some ("jdoe", "s3cret")) new.
Proof.
  destruct (proj1 (proj2 (init_auth_pair (env := Samples.jenkins)
                            "https://ci.example.org" (Some "jdoe")
                            (Some "s3cret") None None Jenkins.DETAIL_DEPTH
                            Jenkins.SLEEP_TIME None))
              "jdoe" "s3cret" eq_refl eq_refl
              ltac:(discriminate) ltac:(discriminate))
    as [self [Hmade Hreq]].
  exists self. split; [exact Hmade|]. exact (Hreq false "build" Samples.fresh).
Defined.

(** C6, counterexample: a user supplied together with an empty token is
    refused, and an empty user supplied together with an empty token gives
    a client without [auth]. *)
Lemma init_supplied_but_empty :
  Jenkins.__init__ "https://ci.example.org" (Some "jdoe") (Some "") None None
    Jenkins.DETAIL_DEPTH Jenkins.SLEEP_TIME None
  = Raise (BackendError "Authentication method requires user and api_token")
  /\ exists self,
       Jenkins.__init__ "https://ci.example.org" (Some "") (Some "") None None
         Jenkins.DETAIL_DEPTH Jenkins.SLEEP_TIME None = Ok self
       /\ Jenkins.auth (Jenkins._init_client self false) = None.
Proof. split; [reflexivity|]. eexists. split; reflexivity. Qed.

(** C9: [Jenkins.metadata_id] reads the [url] entry of the item and nothing
    else.  Two copies of a record, whose [url] entries are equal, get equal
    identifiers, whatever transport and decoder surround the two calls; and
    when the entry is a string the identifier is that string. *)
Theorem metadata_id_stable (env1 env2 : Jenkins.Collaborators) (a b : value) :
  (forall v,
      Jenkins.repr (Collaborators := env1) v
      = Jenkins.repr (Collaborators := env2) v) ->
  getitem a "url" = getitem b "url" ->
  Jenkins.metadata_id (env := env1) a = Jenkins.metadata_id (env := env2) b
  /\ (forall s,
        getitem a "url" = Ok (PStr s) ->
        Jenkins.metadata_id (env := env1) a = Ok s).
Proof.
  intros Hrepr Hurl. unfold Jenkins.metadata_id. split.
  - rewrite Hurl. destruct (getitem b "url") as [u|e]; cbn [bind]; [|reflexivity].
    destruct u; cbn [Jenkins.str]; try rewrite Hrepr; reflexivity.
  - intros s Hs. rewrite Hs. reflexivity.
Qed.

(** C9, witness: the second build of job [A], decoded on two occasions, is
    identified by its URL both times. *)
Lemma metadata_id_stable_witness :
  Jenkins.metadata_id (env := Samples.jenkins) Samples.build_A2
  = Jenkins.metadata_id (env := Samples.jenkins)
      (Samples.build 2 "https://ci.example.org/job/A/2/")
  /\ Jenkins.metadata_id (env := Samples.jenkins) Samples.build_A2
     = Ok "https://ci.example.org/job/A/2/".
Proof.
  destruct (metadata_id_stable Samples.jenkins Samples.jenkins Samples.build_A2
              (Samples.build 2 "https://ci.example.org/job/A/2/")
              (fun v => eq_refl) eq_refl) as [Hsame Hurl].
  split; [exact Hsame | exact (Hurl _ eq_refl)].
Defined.

(** * Further properties *)

(** ** Digits and separators *)

Lemma is_separator_not_digit (c : ascii) :
  GoogleHits.is_separator c = true -> isdigit c = false.
Proof.
  unfold GoogleHits.is_separator. intros H. apply orb_prop in H.
  destruct H as [H | H]; apply Ascii.eqb_eq in H; subst c; reflexivity.
Qed.

Lemma remove_separators_cons (c : ascii) (s : string) :
  GoogleHits.remove_separators (String c s)
  = if GoogleHits.is_separator c then GoogleHits.remove_separators s
    else String c (GoogleHits.remove_separators s).
Proof.
  unfold GoogleHits.remove_separators, GoogleHits.is_separator.
  cbn [remove_char]. destruct (Ascii.eqb c ","%char); cbn [orb]; [reflexivity|].
  cbn [remove_char]. destruct (Ascii.eqb c "."%char); reflexivity.
Qed.

Lemma remove_separators_app (a b : string) :
  GoogleHits.remove_separators (a ++ b)%string
  = (GoogleHits.remove_separators a ++ GoogleHits.remove_separators b)%string.
Proof.
  induction a as [|c a IH]; [reflexivity|].
  cbn [String.append]. rewrite !remove_separators_cons, IH.
  destruct (GoogleHits.is_separator c); reflexivity.
Qed.

Lemma remove_separators_blank (s : string) :
  GoogleHits.remove_separators s = "" <-> GoogleHits.only_separators s = true.
Proof.
  unfold GoogleHits.only_separators.
  induction s as [|c s IH]; [cbn; tauto|].
  rewrite remove_separators_cons. cbn [list_ascii_of_string forallb].
  destruct (GoogleHits.is_separator c); cbn [andb]; [exact IH|].
  split; discriminate.
Qed.

Lemma has_digit_remove_separators (s : string) :
  GoogleHits.has_digit (GoogleHits.remove_separators s) = GoogleHits.has_digit s.
Proof.
  unfold GoogleHits.has_digit.
  induction s as [|c s IH]; [reflexivity|].
  rewrite remove_separators_cons. cbn [list_ascii_of_string existsb].
  destruct (GoogleHits.is_separator c) eqn:E.
  - rewrite (is_separator_not_digit c E). exact IH.
  - cbn [list_ascii_of_string existsb]. rewrite IH. reflexivity.
Qed.

Lemma digits_remove_separators (s : string) :
  GoogleHits.digits_and_separators s = true ->
  forallb isdigit (list_ascii_of_string (GoogleHits.remove_separators s)) = true.
Proof.
  unfold GoogleHits.digits_and_separators.
  induction s as [|c s IH]; [reflexivity|].
  cbn [list_ascii_of_string forallb]. intros H. apply andb_prop in H.
  destruct H as [Hc Hs]. rewrite remove_separators_cons.
  destruct (GoogleHits.is_separator c) eqn:E; [exact (IH Hs)|].
  rewrite orb_false_r in Hc. cbn [list_ascii_of_string forallb].
  rewrite Hc, (IH Hs). reflexivity.
Qed.

Lemma re_search_digits_none (s : string) :
  re_search_digits s = None <-> GoogleHits.has_digit s = false.
Proof.
  unfold GoogleHits.has_digit.
  induction s as [|c s IH]; [cbn; tauto|].
  cbn [re_search_digits list_ascii_of_string existsb].
  destruct (isdigit c); cbn [orb]; [split; discriminate | exact IH].
Qed.

Lemma take_digits_all (s : string) :
  forallb isdigit (list_ascii_of_string (take_digits s)) = true.
Proof.
  induction s as [|c s IH]; [reflexivity|].
  cbn [take_digits]. destruct (isdigit c) eqn:E; [|reflexivity].
  cbn [list_ascii_of_string forallb]. rewrite E, IH. reflexivity.
Qed.

(** What [re.search] finds is a run of digits that is not empty. *)
Lemma re_search_digits_some (s m : string) :
  re_search_digits s = Some m ->
  m <> "" /\ forallb isdigit (list_ascii_of_string m) = true.
Proof.
  revert m. induction s as [|c s IH]; intros m; [discriminate|].
  cbn [re_search_digits]. destruct (isdigit c) eqn:E; [|apply IH].
  intros H. injection H as Hm. subst m. split.
  - cbn [take_digits]. rewrite E. discriminate.
  - exact (take_digits_all (String c s)).
Qed.

Lemma re_search_digits_skip (a b : string) :
  GoogleHits.has_digit a = false ->
  re_search_digits (a ++ b)%string = re_search_digits b.
Proof.
  unfold GoogleHits.has_digit.
  induction a as [|c a IH]; [reflexivity|].
  cbn [list_ascii_of_string existsb String.append re_search_digits].
  intros H. apply orb_false_elim in H. destruct H as [Hc Ha].
  rewrite Hc. exact (IH Ha).
Qed.

Lemma take_digits_run (r q : string) :
  forallb isdigit (list_ascii_of_string r) = true ->
  take_digits q = "" ->
  take_digits (r ++ q)%string = r.
Proof.
  intros Hr Hq. induction r as [|c r IH]; [exact Hq|].
  cbn [list_ascii_of_string forallb] in Hr. apply andb_prop in Hr.
  destruct Hr as [Hc Hr]. cbn [String.append take_digits].
  rewrite Hc, (IH Hr). reflexivity.
Qed.

Lemma int_digits_nonneg (s : string) (acc : Z) :
  forallb isdigit (list_ascii_of_string s) = true ->
  0 <= acc -> 0 <= int_digits acc s.
Proof.
  revert acc. induction s as [|c s IH]; intros acc Hs Hacc; [exact Hacc|].
  cbn [list_ascii_of_string forallb] in Hs. apply andb_prop in Hs.
  destruct Hs as [Hc Hs]. cbn [int_digits]. apply IH; [exact Hs|].
  unfold isdigit in Hc. apply andb_prop in Hc. destruct Hc as [Hlo _].
  apply Nat.leb_le in Hlo. lia.
Qed.

(** ** googlehits.py, further *)

Section GoogleHitsFurther.

Context {env : GoogleHits.Collaborators}.

Lemma parse_hits_inv (self : GoogleHits.Backend) (hit_raw : string) (item : value) :
  GoogleHits.__parse_hits self hit_raw = Ok item ->
  exists text id n,
    GoogleHits.find_resultStats hit_raw = Some text
    /\ GoogleHits.uuid (GoogleHits.id_args self GoogleHits.utcnow_timestamp) = Ok id
    /\ item = GoogleHits.hits_item self id n
    /\ 0 <= n.
Proof.
  unfold GoogleHits.__parse_hits.
  destruct (GoogleHits.find_resultStats hit_raw) as [text|]; [|discriminate].
  cbn [bind].
  destruct (GoogleHits.uuid _) as [id|e]; [|discriminate]. cbn [bind].
  destruct (String.eqb (GoogleHits.remove_separators text) "").
  - intros H. injection H as <-. exists text, id, 0.
    repeat split; reflexivity || lia.
  - destruct (re_search_digits (GoogleHits.remove_separators text)) as [m|] eqn:E;
      [|discriminate].
    cbn [bind]. unfold int_of_str.
    destruct (int_too_long GoogleHits.int_max_str_digits m); [discriminate|].
    cbn [bind]. intros H. injection H as <-.
    exists text, id, (int_of_digits m). repeat split; try reflexivity.
    apply re_search_digits_some in E. destruct E as [_ E].
    apply int_digits_nonneg; [exact E | lia].
Qed.

(** X1: every item [GoogleHits.fetch_items] yields is the dictionary with
    the five entries [fetched_on], [id], [keywords], [type], [hits], in this
    order; its [hits] is a non-negative integer, its [id] is what [uuid]
    returned for the keywords followed by the timestamp, and the three
    metadata functions succeed on it. *)
Theorem fetch_items_item_shape (self : GoogleHits.Backend) (category : string)
    (w : World) (item : value) :
  In item (yielded (GoogleHits.fetch_items self category w)) ->
  exists id n,
    GoogleHits.uuid
      (GoogleHits.keywords self
         ++ [GoogleHits.float_str GoogleHits.utcnow_timestamp]) = Ok id
    /\ 0 <= n
    /\ item = PDict [("fetched_on", PFloat GoogleHits.utcnow_timestamp);
                    ("id", PStr id);
                    ("keywords", PList (map PStr (GoogleHits.keywords self)));
                    ("type", PStr "googleSearchHits");
                    ("hits", PInt n)]
    /\ GoogleHits.metadata_id item = Ok (PStr id)
    /\ GoogleHits.metadata_updated_on item
       = Ok (PFloat GoogleHits.utcnow_timestamp)
    /\ GoogleHits.metadata_category item = "google_hits".
Proof.
  unfold GoogleHits.fetch_items, GoogleHits.hits, GoogleHits.fetch_text.
  destruct (GoogleHits.client self) as [c|]; [|intros []].
  destruct (GoogleHits.http_fetch c _) as [raw|e]; [|intros []].
  destruct (GoogleHits.__parse_hits self raw) as [it|e] eqn:E; [|intros []].
  intros [<- | []].
  destruct (parse_hits_inv self raw it E) as [text [id [n [_ [Hid [-> Hn]]]]]].
  exists id, n. repeat split; assumption || reflexivity.
Qed.

(** X2: for a page whose marker is present, and keywords [uuid] accepts,
    the outcome of [__parse_hits] is decided by the marker text: made of
    commas and dots only (or empty) it gives the count 0; holding a digit it
    gives the number of its first run of digits, unless [int] refuses the
    run for its length and [ValueError] is raised; otherwise (some other
    character and no digit) it raises [AttributeError]. *)
Theorem parse_hits_outcome (self : GoogleHits.Backend)
    (hit_raw text id : string) :
  GoogleHits.find_resultStats hit_raw = Some text ->
  GoogleHits.uuid (GoogleHits.id_args self GoogleHits.utcnow_timestamp) = Ok id ->
  (GoogleHits.only_separators text = true ->
     GoogleHits.__parse_hits self hit_raw = Ok (GoogleHits.hits_item self id 0))
  /\ (GoogleHits.has_digit text = true ->
      exists m,
        re_search_digits (GoogleHits.remove_separators text) = Some m
        /\ GoogleHits.__parse_hits self hit_raw
           = if int_too_long GoogleHits.int_max_str_digits m
             then Raise ValueError
             else Ok (GoogleHits.hits_item self id (int_of_digits m)))
  /\ (GoogleHits.only_separators text = false ->
      GoogleHits.has_digit text = false ->
      GoogleHits.__parse_hits self hit_raw = Raise AttributeError).
Proof.
  intros Hfind Hid. rewrite (parse_hits_found self hit_raw text id Hfind Hid).
  split; [|split].
  - intros H. apply remove_separators_blank in H. rewrite H. reflexivity.
  - intros H. rewrite <- has_digit_remove_separators in H.
    destruct (String.eqb (GoogleHits.remove_separators text) "") eqn:E.
    + apply String.eqb_eq in E. rewrite E in H. discriminate.
    + destruct (re_search_digits (GoogleHits.remove_separators text)) as [m|] eqn:Em.
      * exists m. split; reflexivity.
      * apply re_search_digits_none in Em. rewrite Em in H. discriminate.
  - intros Hsep Hdig.
    destruct (String.eqb (GoogleHits.remove_separators text) "") eqn:E.
    + apply String.eqb_eq in E. apply remove_separators_blank in E.
      rewrite E in Hsep. discriminate.
    + rewrite <- has_digit_remove_separators in Hdig.
      apply re_search_digits_none in Hdig. rewrite Hdig. reflexivity.
Qed.

(** X3: [__parse_hits] asks [uuid] for the id before it looks at the count:
    when [uuid] raises for the keywords, a page whose marker is present
    gives that exception, the page with the empty marker included, and the
    fetch aborts with it after its one request. *)
Theorem parse_hits_uuid_failure (self : GoogleHits.Backend) (c : HttpClient)
    (category : string) (w : World) (hit_raw text : string) (e : exn) :
  GoogleHits.client self = Some c ->
  GoogleHits.http_fetch c (GoogleHits.hits_request (GoogleHits.keywords self))
    = Ok hit_raw ->
  GoogleHits.find_resultStats hit_raw = Some text ->
  GoogleHits.uuid (GoogleHits.id_args self GoogleHits.utcnow_timestamp)
    = Raise e ->
  GoogleHits.__parse_hits self hit_raw = Raise e
  /\ GoogleHits.fetch_items self category w
     = abort e
         (log_request (GoogleHits.hits_request (GoogleHits.keywords self)) w).
Proof.
  intros Hc Hfetch Hfind Hid.
  assert (Hparse : GoogleHits.__parse_hits self hit_raw = Raise e).
  { unfold GoogleHits.__parse_hits. rewrite Hfind. cbn [bind]. rewrite Hid.
    reflexivity. }
  split; [exact Hparse|].
  rewrite (fetch_items_parsed self c category w hit_raw Hc Hfetch). cbv zeta.
  rewrite Hparse. reflexivity.
Qed.

(** X4: a call of [GoogleHits.fetch_items] on a connector with a client
    sends exactly one request, whatever the answer and however the parse
    ends: to the search URL, with the keywords joined by single spaces as
    [q], and without credentials. *)
Theorem fetch_items_single_request (self : GoogleHits.Backend) (c : HttpClient)
    (category : string) (w : World) :
  GoogleHits.client self = Some c ->
  exists r,
    requests (world (GoogleHits.fetch_items self category w)) = requests w ++ [r]
    /\ req_url r = "https://www.google.com/search"
    /\ req_payload r = Some [("q", PStr (join " " (GoogleHits.keywords self)))]
    /\ req_auth r = None.
Proof.
  intros Hc. exists (GoogleHits.hits_request (GoogleHits.keywords self)).
  split.
  - unfold GoogleHits.fetch_items, GoogleHits.hits, GoogleHits.fetch_text.
    rewrite Hc. destruct (GoogleHits.http_fetch c _) as [raw|e]; [|reflexivity].
    destruct (GoogleHits.__parse_hits self raw); reflexivity.
  - split; [reflexivity|]. split; [|reflexivity].
    unfold GoogleHits.hits_request, GoogleHits.query_str. cbn [req_payload].
    destruct (GoogleHits.keywords self) as [|k [|k' rest]]; reflexivity.
Qed.

(** X5: in a marker text that opens with characters other than digits,
    goes on with a group of digits, commas and dots, and then either ends
    or goes on with a character that is none of these, the digits of the
    group are what [int] is given: the count is the number they spell, or
    [ValueError] is raised when [int] refuses them for their length; what
    follows the group is not read. *)
Theorem parse_hits_first_group (self : GoogleHits.Backend)
    (hit_raw pre group post id : string) :
  GoogleHits.find_resultStats hit_raw = Some (pre ++ group ++ post)%string ->
  GoogleHits.uuid (GoogleHits.id_args self GoogleHits.utcnow_timestamp) = Ok id ->
  GoogleHits.has_digit pre = false ->
  GoogleHits.digits_and_separators group = true ->
  GoogleHits.has_digit group = true ->
  post = ""
  \/ (exists ch rest,
         post = String ch rest
         /\ isdigit ch = false /\ GoogleHits.is_separator ch = false) ->
  GoogleHits.__parse_hits self hit_raw
  = if int_too_long GoogleHits.int_max_str_digits
         (GoogleHits.remove_separators group)
    then Raise ValueError
    else Ok (GoogleHits.hits_item self id
               (int_of_digits (GoogleHits.remove_separators group))).
Proof.
  intros Hfind Hid Hpre Hgroup Hdigit Hpost.
  rewrite (parse_hits_found self hit_raw _ id Hfind Hid).
  rewrite !remove_separators_app.
  assert (Hall := digits_remove_separators group Hgroup).
  assert (Hsome : GoogleHits.remove_separators group <> "").
  { intros Hnil. rewrite <- has_digit_remove_separators, Hnil in Hdigit.
    discriminate. }
  assert (Hrest : take_digits (GoogleHits.remove_separators post) = "").
  { destruct Hpost as [-> | [ch [rest [-> [Hd Hs]]]]]; [reflexivity|].
    rewrite remove_separators_cons, Hs. cbn [take_digits]. rewrite Hd.
    reflexivity. }
  assert (Hsearch :
            re_search_digits
              (GoogleHits.remove_separators pre
               ++ GoogleHits.remove_separators group
               ++ GoogleHits.remove_separators post)%string
            = Some (GoogleHits.remove_separators group)).
  { rewrite re_search_digits_skip
      by (rewrite has_digit_remove_separators; exact Hpre).
    pose proof (take_digits_run _ _ Hall Hrest) as Htake.
    destruct (GoogleHits.remove_separators group) as [|d ds] eqn:Eg;
      [contradiction|].
    cbn [list_ascii_of_string forallb] in Hall. apply andb_prop in Hall.
    destruct Hall as [Hd _].
    cbn [String.append re_search_digits]. rewrite Hd.
    cbn [String.append] in Htake. rewrite Htake. reflexivity. }
  rewrite Hsearch.
  destruct (String.eqb _ "") eqn:E; [|reflexivity].
  apply String.eqb_eq in E. rewrite E in Hsearch. discriminate.
Qed.

End GoogleHitsFurther.

(** ** jenkins.py, further *)

Section JenkinsFurther.

Context {env : Jenkins.Collaborators}.

(** The fetch, once the walk has completed the jobs before [job]. *)
Lemma fetch_items_at_job (self : Jenkins.Backend) (c : Jenkins.JenkinsClient)
    (category : string) (w : World) (pre : list value) (job : value)
    (post : list value) :
  Jenkins.client self = Some c ->
  Jenkins.job_listing c = Ok (pre ++ job :: post) ->
  let before :=
    Jenkins.fetch_items_loop c pre (log_request (Jenkins.jobs_request c) w) in
  ending before = Ok tt ->
  Jenkins.fetch_items self category w
  = yield_all (yielded before)
      (Jenkins.fetch_items_loop c (job :: post) (world before)).
Proof.
  intros Hc Hjobs before Hbefore.
  rewrite (fetch_items_eq self c category w Hc), Hjobs, loop_app.
  fold before. unfold and_then. rewrite Hbefore. reflexivity.
Qed.

(** X6: nothing is caught while the job listing is fetched and decoded.  An
    exception of the transport (status 500 included), an exception of
    [json.loads] ([ValueError] included) and a listing without a [jobs]
    entry each end the fetch at once: no item, no skipped job, and the
    listing request as the only request. *)
Theorem listing_errors_abort (self : Jenkins.Backend) (c : Jenkins.JenkinsClient)
    (category : string) (w : World) :
  Jenkins.client self = Some c ->
  let aborted e :=
    Jenkins.fetch_items self category w
    = abort e (log_request (Jenkins.jobs_request c) w) in
  (forall e,
      Jenkins.http_fetch (Jenkins.http c) (Jenkins.jobs_request c) = Raise e ->
      aborted e)
  /\ (forall text e,
        Jenkins.http_fetch (Jenkins.http c) (Jenkins.jobs_request c) = Ok text ->
        Jenkins.json_loads text = Raise e ->
        aborted e)
  /\ (forall text entries,
        Jenkins.http_fetch (Jenkins.http c) (Jenkins.jobs_request c) = Ok text ->
        Jenkins.json_loads text = Ok (PDict entries) ->
        dict_get entries "jobs" = None ->
        aborted (KeyError "jobs")).
Proof.
  intros Hc. cbv zeta. rewrite (fetch_items_eq self c category w Hc).
  unfold Jenkins.job_listing. split; [|split].
  - intros e ->. reflexivity.
  - intros text e -> H. cbn [bind]. rewrite H. reflexivity.
  - intros text entries -> H Hget. cbn [bind]. rewrite H. cbn [bind getitem].
    rewrite Hget. reflexivity.
Qed.

(** X7: a job entry without [url], or with [url] and without [name], ends
    the walk when it is reached: the exception of the lookup leaves
    [fetch_items] after the items of the earlier jobs, nothing is asked of
    the server for this job, nothing is counted as skipped and no later job
    is visited. *)
Theorem malformed_job_aborts (self : Jenkins.Backend) (c : Jenkins.JenkinsClient)
    (category : string) (w : World) (pre : list value) (job : value)
    (post : list value) (e : exn) :
  Jenkins.client self = Some c ->
  Jenkins.job_listing c = Ok (pre ++ job :: post) ->
  let before :=
    Jenkins.fetch_items_loop c pre (log_request (Jenkins.jobs_request c) w) in
  ending before = Ok tt ->
  getitem job "url" = Raise e
  \/ (exists u, getitem job "url" = Ok u /\ getitem job "name" = Raise e) ->
  Jenkins.fetch_items self category w
  = {| yielded := yielded before; ending := Raise e; world := world before |}.
Proof.
  intros Hc Hjobs before Hbefore Hbad.
  rewrite (fetch_items_at_job self c category w pre job post Hc Hjobs Hbefore).
  fold before. cbn [Jenkins.fetch_items_loop].
  destruct Hbad as [Hurl | [u [Hurl Hname]]].
  - rewrite Hurl. cbn [bind]. unfold yield_all, abort. cbn.
    rewrite app_nil_r. reflexivity.
  - rewrite Hurl. cbn [bind]. rewrite Hname. unfold yield_all, abort. cbn.
    rewrite app_nil_r. reflexivity.
Qed.

(** X8: a builds payload that is JSON but has no usable [builds] entry is
    not skipped: the [KeyError] or [TypeError] of reading the entry leaves
    [fetch_items] after the items of the earlier jobs, with the skipped
    counter as the earlier jobs left it. *)
Theorem payload_without_builds_aborts (self : Jenkins.Backend)
    (c : Jenkins.JenkinsClient) (category : string) (w : World)
    (pre : list value) (job : value) (post : list value) (u job_name : value)
    (raw_builds : string) (payload : value) (e : exn) (w1 : World) :
  Jenkins.client self = Some c ->
  Jenkins.job_listing c = Ok (pre ++ job :: post) ->
  let before :=
    Jenkins.fetch_items_loop c pre (log_request (Jenkins.jobs_request c) w) in
  ending before = Ok tt ->
  getitem job "url" = Ok u ->
  getitem job "name" = Ok job_name ->
  Jenkins.get_builds c job_name (world before) = (Ok (Some raw_builds), w1) ->
  raw_builds <> "" ->
  Jenkins.json_loads raw_builds = Ok payload ->
  (builds <- getitem payload "builds" ;; iter builds) = Raise e ->
  Jenkins.fetch_items self category w
  = {| yielded := yielded before; ending := Raise e; world := w1 |}
  /\ summary_skipped w1 = summary_skipped (world before).
Proof.
  intros Hc Hjobs before Hbefore Hurl Hname Hget Hne Hjson Hbuilds.
  rewrite (fetch_items_at_job self c category w pre job post Hc Hjobs Hbefore).
  fold before. cbn [Jenkins.fetch_items_loop].
  rewrite Hurl. cbn [bind]. rewrite Hname, Hget.
  apply String.eqb_neq in Hne. unfold truthy. rewrite Hne. cbn [negb].
  rewrite Hjson, Hbuilds. split.
  - unfold yield_all, abort. cbn. rewrite app_nil_r. reflexivity.
  - rewrite get_builds_eq in Hget. injection Hget as _ Hw. subst w1.
    unfold Jenkins.after_get_builds.
    destruct (Jenkins.blacklisted c job_name); reflexivity.
Qed.

Lemma after_job_length (c : Jenkins.JenkinsClient) (job : value) (w : World) :
  (List.length (requests (Jenkins.after_job c job w))
   <= List.length (requests w) + 1)%nat.
Proof.
  unfold Jenkins.after_job, Jenkins.after_get_builds.
  destruct (_ <- getitem job "url" ;; getitem job "name") as [job_name|e];
    [|lia].
  destruct (Jenkins.blacklisted c job_name); [lia|].
  cbn [requests log_request]. rewrite length_app. cbn. lia.
Qed.

Lemma loop_bounds (c : Jenkins.JenkinsClient) (jobs : list value) (w : World) :
  let run := Jenkins.fetch_items_loop c jobs w in
  summary_skipped w <= summary_skipped (world run)
  /\ summary_skipped (world run) <= summary_skipped w + Z.of_nat (List.length jobs)
  /\ (List.length (requests (world run))
      <= List.length (requests w) + List.length jobs)%nat.
Proof.
  revert w. induction jobs as [|job rest IH]; intros w; cbv zeta.
  - cbn. lia.
  - rewrite loop_step.
    pose proof (after_job_skipped c job w) as Hs.
    pose proof (after_job_length c job w) as Hl.
    pose proof (IH (skip_one (Jenkins.after_job c job w))) as Hskip.
    pose proof (IH (Jenkins.after_job c job w)) as Hgo.
    cbv zeta in Hskip, Hgo. cbn [summary_skipped requests skip_one] in Hskip.
    cbn [List.length].
    destruct (Jenkins.branch c job);
      cbn [world yield_all abort summary_skipped requests]; lia.
Qed.

(** X9: during a fetch whose listing holds [n] jobs, the skipped counter
    never goes down and grows by at most [n], and at most [n + 1] requests
    are sent, however the run ends. *)
Theorem fetch_items_bounds (self : Jenkins.Backend) (c : Jenkins.JenkinsClient)
    (category : string) (w : World) (jobs : list value) :
  Jenkins.client self = Some c ->
  Jenkins.job_listing c = Ok jobs ->
  let run := Jenkins.fetch_items self category w in
  summary_skipped w <= summary_skipped (world run)
  /\ summary_skipped (world run) <= summary_skipped w + Z.of_nat (List.length jobs)
  /\ (List.length (requests (world run))
      <= List.length (requests w) + 1 + List.length jobs)%nat.
Proof.
  intros Hc Hjobs. cbv zeta.
  rewrite (fetch_items_eq self c category w Hc), Hjobs.
  pose proof (loop_bounds c jobs (log_request (Jenkins.jobs_request c) w)) as H.
  cbv zeta in H. cbn [summary_skipped requests log_request] in H.
  rewrite length_app in H. cbn [List.length] in H. lia.
Qed.

(** A walk yields the builds of the jobs it passes: of all of them when it
    completes, of those before the job it stops at when it raises. *)
Lemma loop_yields (c : Jenkins.JenkinsClient) (jobs : list value) (w : World) :
  let run := Jenkins.fetch_items_loop c jobs w in
  let builds_of js :=
    flat_map (fun job => Jenkins.branch_items (Jenkins.branch c job)) js in
  (ending run = Ok tt /\ yielded run = builds_of jobs)
  \/ (exists e pre job post,
         jobs = pre ++ job :: post
         /\ (forall j, In j pre -> Jenkins.is_fatal (Jenkins.branch c j) = false)
         /\ Jenkins.branch c job = Jenkins.Fatal e
         /\ ending run = Raise e
         /\ yielded run = builds_of pre).
Proof.
  cbv zeta. revert w. induction jobs as [|job rest IH]; intros w.
  - left. split; reflexivity.
  - rewrite loop_step.
    assert (Hnext : forall w' items,
              Jenkins.is_fatal (Jenkins.branch c job) = false ->
              Jenkins.branch_items (Jenkins.branch c job) = items ->
              let run := yield_all items (Jenkins.fetch_items_loop c rest w') in
              (ending run = Ok tt
               /\ yielded run
                  = flat_map
                      (fun j => Jenkins.branch_items (Jenkins.branch c j))
                      (job :: rest))
              \/ (exists e pre job0 post,
                     job :: rest = pre ++ job0 :: post
                     /\ (forall j, In j pre ->
                           Jenkins.is_fatal (Jenkins.branch c j) = false)
                     /\ Jenkins.branch c job0 = Jenkins.Fatal e
                     /\ ending run = Raise e
                     /\ yielded run
                        = flat_map
                            (fun j => Jenkins.branch_items (Jenkins.branch c j))
                            pre)).
    { intros w' items Hfine Hitems. cbv zeta. cbn [yield_all ending yielded].
      destruct (IH w') as [[Hend Hy] | [e [pre [job0 [post H]]]]].
      - left. split; [exact Hend|]. cbn [flat_map]. rewrite Hitems, Hy.
        reflexivity.
      - destruct H as [Hsplit [Hpre [Hfatal [Hend Hy]]]].
        right. exists e, (job :: pre), job0, post.
        split; [rewrite Hsplit; reflexivity|].
        split; [intros j [<- | Hj]; [exact Hfine | exact (Hpre j Hj)]|].
        split; [exact Hfatal|]. split; [exact Hend|].
        cbn [flat_map]. rewrite Hitems, Hy. reflexivity. }
    destruct (Jenkins.branch c job) eqn:E.
    1-3: specialize (Hnext (skip_one (Jenkins.after_job c job w)) []
                       eq_refl eq_refl);
         cbv zeta in Hnext; unfold yield_all in Hnext;
         cbn [app yielded ending] in Hnext;
         destruct (Jenkins.fetch_items_loop c rest
                     (skip_one (Jenkins.after_job c job w)));
         exact Hnext.
    + exact (Hnext (Jenkins.after_job c job w) items eq_refl eq_refl).
    + right. exists e, [], job, rest. repeat split; try reflexivity.
      * intros j [].
      * exact E.
Qed.

(** X10: the items of a fetch are exactly the builds of the jobs the walk
    passes, in the order of the listing: of every listed job when the run
    completes, and, when the run raises, of the jobs that stand before the
    job it raises at, so that what was yielded before the exception is
    kept and nothing is yielded twice, out of order or from elsewhere. *)
Theorem fetch_items_yields_passed_jobs (self : Jenkins.Backend)
    (c : Jenkins.JenkinsClient) (category : string) (w : World)
    (jobs : list value) :
  Jenkins.client self = Some c ->
  Jenkins.job_listing c = Ok jobs ->
  let run := Jenkins.fetch_items self category w in
  let builds_of js :=
    flat_map (fun job => Jenkins.branch_items (Jenkins.branch c job)) js in
  (ending run = Ok tt /\ yielded run = builds_of jobs)
  \/ (exists e pre job post,
         jobs = pre ++ job :: post
         /\ (forall j, In j pre -> Jenkins.is_fatal (Jenkins.branch c j) = false)
         /\ Jenkins.branch c job = Jenkins.Fatal e
         /\ ending run = Raise e
         /\ yielded run = builds_of pre).
Proof.
  intros Hc Hjobs. cbv zeta.
  rewrite (fetch_items_eq self c category w Hc), Hjobs.
  exact (loop_yields c jobs (log_request (Jenkins.jobs_request c) w)).
Qed.

Lemma loop_denied_count (c : Jenkins.JenkinsClient) (jobs : list value)
    (w w' : World) :
  ending (Jenkins.fetch_items_loop c jobs w) = Ok tt ->
  summary_skipped (world (Jenkins.fetch_items_loop c jobs w)) - summary_skipped w
  = summary_skipped
      (world (Jenkins.fetch_items_loop c
                (filter (fun job => negb (Jenkins.denied c job)) jobs) w'))
    - summary_skipped w'
    + Z.of_nat (List.length (filter (Jenkins.denied c) jobs)).
Proof.
  revert w w'. induction jobs as [|job rest IH]; intros w w'.
  - cbn. lia.
  - cbn [filter]. destruct (Jenkins.denied c job) eqn:Hd; cbn [negb].
    + destruct (after_job_denied c job w Hd) as [Hb Ha].
      rewrite loop_step, Hb, Ha. intros Hend.
      pose proof (IH (skip_one w) w' Hend) as H.
      cbn [summary_skipped skip_one List.length] in H |- *. lia.
    + rewrite !loop_step.
      pose proof (after_job_skipped c job w) as Hs.
      pose proof (after_job_skipped c job w') as Hs'.
      destruct (Jenkins.branch c job).
      1-3: intros Hend;
           pose proof (IH _ (skip_one (Jenkins.after_job c job w')) Hend) as H;
           cbn [summary_skipped skip_one] in H; lia.
      * cbn [yield_all ending world]. intros Hend.
        pose proof (IH _ (Jenkins.after_job c job w') Hend) as H. lia.
      * discriminate.
Qed.

(** X11: a job on the deny-list is counted as skipped.  When the walk
    reaches its end, the skipped counter is the one the walk over the
    listing without the denied jobs leaves, plus the number of denied
    jobs. *)
Theorem denied_jobs_count_as_skipped (c : Jenkins.JenkinsClient)
    (jobs : list value) (w : World) :
  ending (Jenkins.fetch_items_loop c jobs w) = Ok tt ->
  summary_skipped (world (Jenkins.fetch_items_loop c jobs w))
  = summary_skipped
      (world (Jenkins.fetch_items_loop c
                (filter (fun job => negb (Jenkins.denied c job)) jobs) w))
    + Z.of_nat (List.length (filter (Jenkins.denied c) jobs)).
Proof.
  intros Hend. pose proof (loop_denied_count c jobs w w Hend). lia.
Qed.

(** X12: [get_builds] returns [None] for the names on the deny-list and for
    no other: a name is on it when the list is not empty, the name is a
    string and the list holds it.  For every other name exactly one request
    is sent, and the answer is a body or an exception. *)
Theorem get_builds_none_iff_denied (c : Jenkins.JenkinsClient)
    (job_name : value) (w : World) :
  (fst (Jenkins.get_builds c job_name w) = Ok None
   <-> exists l s,
         Jenkins.blacklist_jobs c = Some l /\ job_name = PStr s /\ In s l)
  /\ ((forall l s,
         Jenkins.blacklist_jobs c = Some l -> job_name = PStr s -> ~ In s l) ->
      snd (Jenkins.get_builds c job_name w)
      = log_request (Jenkins.builds_request c job_name) w).
Proof.
  rewrite get_builds_eq. cbn [fst snd].
  unfold Jenkins.builds_payload, Jenkins.after_get_builds.
  rewrite <- blacklisted_iff. split.
  - destruct (Jenkins.blacklisted c job_name); [tauto|].
    destruct (Jenkins.http_fetch _ _); cbn [bind]; split; discriminate.
  - intros Hfree. destruct (Jenkins.blacklisted c job_name) eqn:E; [|reflexivity].
    apply blacklisted_iff in E. destruct E as [l [s [Hl [Hs Hin]]]].
    destruct (Hfree l s Hl Hs Hin).
Qed.

(** X13: the [detail_depth] given to [Jenkins.__init__] reaches the server:
    of the requests of a fetch, the first is the job listing, sent without
    parameters, and every other one carries [depth] set to that value as
    its only parameter. *)
Theorem detail_depth_reaches_requests (url : string)
    (user api_token tag archive : option string) (detail_depth sleep_time : Z)
    (blacklist_ids : option (list string)) (self : Jenkins.Backend)
    (from_archive : bool) (category : string) (w : World) :
  Jenkins.__init__ url user api_token tag archive detail_depth sleep_time
    blacklist_ids = Ok self ->
  let c := Jenkins._init_client self from_archive in
  exists others,
    requests
      (world (Jenkins.fetch_items (Jenkins.set_client self c) category w))
    = requests w ++ Jenkins.jobs_request c :: others
    /\ req_payload (Jenkins.jobs_request c) = None
    /\ Forall (fun r => req_payload r = Some [("depth", PInt detail_depth)])
         others.
Proof.
  intros Hinit c.
  assert (Hdepth : Jenkins.client_detail_depth c = detail_depth).
  { unfold Jenkins.__init__ in Hinit.
    destruct (_ || _)%bool; [discriminate|]. injection Hinit as <-.
    reflexivity. }
  rewrite (fetch_items_eq (Jenkins.set_client self c) c category w eq_refl).
  assert (Hloop : forall jobs,
            exists others,
              requests
                (world (Jenkins.fetch_items_loop c jobs
                          (log_request (Jenkins.jobs_request c) w)))
              = requests w ++ Jenkins.jobs_request c :: others
              /\ Forall
                   (fun r => req_payload r = Some [("depth", PInt detail_depth)])
                   others).
  { intros jobs.
    assert (Hgen : forall w0 sent,
              requests w0 = requests w ++ Jenkins.jobs_request c :: sent ->
              Forall
                (fun r => req_payload r = Some [("depth", PInt detail_depth)])
                sent ->
              exists others,
                requests (world (Jenkins.fetch_items_loop c jobs w0))
                = requests w ++ Jenkins.jobs_request c :: others
                /\ Forall
                     (fun r =>
                        req_payload r = Some [("depth", PInt detail_depth)])
                     others).
    { induction jobs as [|job rest IH]; intros w0 sent Hw0 Hsent.
      - exists sent. split; assumption.
      - rewrite loop_step.
        assert (Hafter : exists sent',
                  requests (Jenkins.after_job c job w0)
                  = requests w ++ Jenkins.jobs_request c :: sent'
                  /\ Forall
                       (fun r =>
                          req_payload r = Some [("depth", PInt detail_depth)])
                       sent').
        { unfold Jenkins.after_job, Jenkins.after_get_builds.
          destruct (_ <- getitem job "url" ;; getitem job "name")
            as [job_name|e]; [|exists sent; split; assumption].
          destruct (Jenkins.blacklisted c job_name);
            [exists sent; split; assumption|].
          exists (sent ++ [Jenkins.builds_request c job_name]).
          cbn [requests log_request]. rewrite Hw0, <- app_assoc. split.
          - reflexivity.
          - apply Forall_app. split; [exact Hsent|].
            constructor; [|constructor].
            unfold Jenkins.builds_request. cbn [req_payload].
            rewrite Hdepth. reflexivity. }
        destruct Hafter as [sent' [Hw' Hsent']].
        destruct (Jenkins.branch c job).
        1-3: apply (IH (skip_one (Jenkins.after_job c job w0)) sent');
             [exact Hw' | exact Hsent'].
        + cbn [yield_all world].
          apply (IH (Jenkins.after_job c job w0) sent'); assumption.
        + exists sent'. split; assumption. }
    apply (Hgen (log_request (Jenkins.jobs_request c) w) []);
      [reflexivity | constructor]. }
  destruct (Jenkins.job_listing c) as [jobs|e].
  - destruct (Hloop jobs) as [others [H1 H2]].
    exists others. split; [exact H1|]. split; [reflexivity | exact H2].
  - exists []. split; [reflexivity|]. split; [reflexivity | constructor].
Qed.

(** X14: a walk over two lists of jobs, one after the other, is the walk
    over the first followed, if it completes, by the walk over the second
    from the world the first left; if the first raises, the second list is
    not touched. *)
Theorem walk_of_concatenation (c : Jenkins.JenkinsClient)
    (pre post : list value) (w : World) :
  let first := Jenkins.fetch_items_loop c pre w in
  (ending first = Ok tt ->
     Jenkins.fetch_items_loop c (pre ++ post) w
     = yield_all (yielded first) (Jenkins.fetch_items_loop c post (world first)))
  /\ (forall e,
        ending first = Raise e ->
        Jenkins.fetch_items_loop c (pre ++ post) w = first).
Proof.
  cbv zeta. rewrite loop_app. unfold and_then. split.
  - intros ->. reflexivity.
  - intros e ->. reflexivity.
Qed.

Lemma loop_raises (c : Jenkins.JenkinsClient) (jobs : list value) (w : World)
    (e : exn) :
  ending (Jenkins.fetch_items_loop c jobs w) = Raise e ->
  exists pre job post,
    jobs = pre ++ job :: post
    /\ (forall j, In j pre -> Jenkins.is_fatal (Jenkins.branch c j) = false)
    /\ Jenkins.branch c job = Jenkins.Fatal e.
Proof.
  revert w. induction jobs as [|job rest IH]; intros w; [discriminate|].
  rewrite loop_step.
  assert (Hnext : forall w',
            Jenkins.is_fatal (Jenkins.branch c job) = false ->
            ending (Jenkins.fetch_items_loop c rest w') = Raise e ->
            exists pre job0 post,
              job :: rest = pre ++ job0 :: post
              /\ (forall j, In j pre ->
                    Jenkins.is_fatal (Jenkins.branch c j) = false)
              /\ Jenkins.branch c job0 = Jenkins.Fatal e).
  { intros w' Hjob Hend.
    destruct (IH w' Hend) as [pre [job0 [post [Hsplit [Hpre Hfatal]]]]].
    exists (job :: pre), job0, post. split; [rewrite Hsplit; reflexivity|].
    split; [|exact Hfatal].
    intros j [<- | Hj]; [exact Hjob | exact (Hpre j Hj)]. }
  destruct (Jenkins.branch c job) eqn:E.
  1-3: apply Hnext; reflexivity.
  - cbn [yield_all ending]. apply Hnext. reflexivity.
  - cbn [abort ending]. intros H. injection H as <-.
    exists [], job, rest. split; [reflexivity|]. split; [intros j []|exact E].
Qed.

(** X15: how a walk ends is decided by the first job that is neither
    skipped nor read: the walk completes exactly when every job is
    unavailable (500), without data, unparsable or carries builds, and it
    raises [e] exactly when the first job that is none of these fails
    with [e]. *)
Theorem walk_ending (c : Jenkins.JenkinsClient) (jobs : list value) (w : World) :
  (ending (Jenkins.fetch_items_loop c jobs w) = Ok tt
   <-> forall job, In job jobs -> Jenkins.is_fatal (Jenkins.branch c job) = false)
  /\ (forall e,
        ending (Jenkins.fetch_items_loop c jobs w) = Raise e
        <-> exists pre job post,
              jobs = pre ++ job :: post
              /\ (forall j, In j pre ->
                    Jenkins.is_fatal (Jenkins.branch c j) = false)
              /\ Jenkins.branch c job = Jenkins.Fatal e).
Proof.
  assert (Hraise : forall e pre job post,
            jobs = pre ++ job :: post ->
            (forall j, In j pre -> Jenkins.is_fatal (Jenkins.branch c j) = false) ->
            Jenkins.branch c job = Jenkins.Fatal e ->
            ending (Jenkins.fetch_items_loop c jobs w) = Raise e).
  { intros e pre job post -> Hpre Hfatal. rewrite loop_app. unfold and_then.
    destruct (loop_completes c pre w Hpre) as [Hend _]. rewrite Hend.
    rewrite loop_step, Hfatal. reflexivity. }
  split.
  - split.
    + intros Hend job Hin.
      destruct (Jenkins.is_fatal (Jenkins.branch c job)) eqn:E; [|reflexivity].
      apply in_split in Hin. destruct Hin as [pre [post Hsplit]].
      assert (Hfirst : exists e, ending (Jenkins.fetch_items_loop c jobs w) = Raise e).
      { clear Hend Hraise. subst jobs. revert w.
        induction pre as [|j pre IH]; intros w.
        - cbn [app]. rewrite loop_step.
          destruct (Jenkins.branch c job); try discriminate.
          eexists. reflexivity.
        - rewrite <- app_comm_cons, loop_step.
          destruct (Jenkins.branch c j); cbn [yield_all ending];
            try apply IH.
          eexists. reflexivity. }
      destruct Hfirst as [e He]. rewrite He in Hend. discriminate.
    + intros Hfine. exact (proj1 (loop_completes c jobs w Hfine)).
  - intros e. split.
    + apply loop_raises.
    + intros [pre [job [post [Hsplit [Hpre Hfatal]]]]].
      exact (Hraise e pre job post Hsplit Hpre Hfatal).
Qed.

End JenkinsFurther.

(** ** Sample runs for the further properties *)

(** X1, witness: the item of the example run. *)
Lemma fetch_items_item_shape_witness :
  GoogleHits.metadata_id
    (GoogleHits.hits_item (env := Samples.google)
       (Samples.google_backend ["rust"; "programming"])
       "rust:programming:1546300800.0" 12345)
  = Ok (PStr "rust:programming:1546300800.0").
Proof.
  destruct (fetch_items_item_shape (env := Samples.google)
              (Samples.google_backend ["rust"; "programming"]) "google_hits"
              Samples.fresh
              (GoogleHits.hits_item (env := Samples.google)
                 (Samples.google_backend ["rust"; "programming"])
                 "rust:programming:1546300800.0" 12345)
              (or_introl eq_refl))
    as [id [n [Hid [_ [Hitem [Hmeta _]]]]]].
  injection Hid as <-. exact Hmeta.
Defined.

(** X2, witness: "No results" holds a letter and no digit; a run of 641
    digits is refused under the limit 640. *)
Lemma parse_hits_outcome_witness :
  GoogleHits.__parse_hits (env := Samples.google)
    (Samples.google_backend ["qwertzuiop"]) Samples.page_no_results
  = Raise AttributeError
  /\ GoogleHits.__parse_hits (env := Samples.counting_google)
       (Samples.google_backend ["rust"]) Samples.page_about
     = Raise ValueError.
Proof.
  split.
  - exact (proj2 (proj2 (parse_hits_outcome (env := Samples.google)
                           (Samples.google_backend ["qwertzuiop"])
                           Samples.page_no_results "No results"
                           "qwertzuiop:1546300800.0" eq_refl eq_refl))
             eq_refl eq_refl).
  - destruct (proj1 (proj2 (parse_hits_outcome (env := Samples.counting_google)
                              (Samples.google_backend ["rust"])
                              Samples.page_about (Samples.sevens 641)
                              "rust:1546300800.0" eq_refl eq_refl))
                eq_refl) as [m [Hm Hparse]].
    vm_compute in Hm. injection Hm as <-. exact Hparse.
Defined.

(** X3, witness: an empty second keyword passes [__init__] and is refused
    by the sample [uuid]. *)
Lemma parse_hits_uuid_failure_witness :
  (exists self,
      GoogleHits.__init__ ["rust"; ""] None None GoogleHits.MAX_RETRIES
        GoogleHits.DEFAULT_SLEEP_TIME = Ok self)
  /\ GoogleHits.fetch_items (env := Samples.strict_google)
       (Samples.google_backend ["rust"; ""]) "google_hits" Samples.fresh
     = abort ValueError
         (log_request (GoogleHits.hits_request ["rust"; ""]) Samples.fresh).
Proof.
  split; [eexists; reflexivity|].
  exact (proj2 (parse_hits_uuid_failure (env := Samples.strict_google)
                  (Samples.google_backend ["rust"; ""]) _ "google_hits"
                  Samples.fresh Samples.page_about
                  "About 1,234,567 results (0.45 seconds)" ValueError
                  eq_refl eq_refl eq_refl eq_refl)).
Defined.

(** X4, witness: the one request of the example run. *)
Lemma fetch_items_single_request_witness :
  exists r,
    requests
      (world (GoogleHits.fetch_items (env := Samples.google)
                (Samples.google_backend ["rust"; "programming"]) "google_hits"
                Samples.fresh)) = [r]
    /\ req_payload r = Some [("q", PStr "rust programming")].
Proof.
  destruct (fetch_items_single_request (env := Samples.google)
              (Samples.google_backend ["rust"; "programming"]) _ "google_hits"
              Samples.fresh eq_refl) as [r [Hlog [_ [Hq _]]]].
  exists r. split; [exact Hlog | exact Hq].
Defined.

(** X5, witness: the group [1,234,567] is read, the [0.45] behind it is
    not. *)
Lemma parse_hits_first_group_witness :
  GoogleHits.__parse_hits (env := Samples.strict_google)
    (Samples.google_backend ["rust"]) Samples.page_about
  = Ok (GoogleHits.hits_item (env := Samples.strict_google)
          (Samples.google_backend ["rust"]) "rust:1546300800.0" 1234567).
Proof.
  exact (parse_hits_first_group (env := Samples.strict_google)
           (Samples.google_backend ["rust"]) Samples.page_about
           "About " "1,234,567" " results (0.45 seconds)" "rust:1546300800.0"
           eq_refl eq_refl eq_refl eq_refl eq_refl
           (or_intror
              (ex_intro _ " "%char
                 (ex_intro _ "results (0.45 seconds)"
                    (conj eq_refl (conj eq_refl eq_refl)))))).
Defined.

(** X6, witness: a node that answers the listing with status 500. *)
Lemma listing_errors_abort_witness :
  Jenkins.fetch_items (env := Samples.troubled_jenkins)
    (Samples.jenkins_backend "https://down.example.org" None None None)
    "build" Samples.fresh
  = abort (HTTPError 500)
      (log_request
         (Jenkins.jobs_request (env := Samples.troubled_jenkins)
            (Samples.client_of
               (Samples.jenkins_backend "https://down.example.org" None None
                  None)))
         Samples.fresh).
Proof.
  exact (proj1 (listing_errors_abort (env := Samples.troubled_jenkins)
                  (Samples.jenkins_backend "https://down.example.org" None None
                     None)
                  _ "build" Samples.fresh eq_refl)
           (HTTPError 500) eq_refl).
Defined.

(** X7, witness: the second entry of the listing has no [url]. *)
Lemma malformed_job_aborts_witness :
  Jenkins.fetch_items (env := Samples.troubled_jenkins)
    (Samples.jenkins_backend "https://bad.example.org" None None None)
    "build" Samples.fresh
  = {| yielded := [Samples.build_A1; Samples.build_A2];
       ending := Raise (KeyError "url");
       world :=
         world
           (Jenkins.fetch_items_loop (env := Samples.troubled_jenkins)
              (Samples.client_of
                 (Samples.jenkins_backend "https://bad.example.org" None None
                    None))
              [Samples.job_A]
              (log_request
                 (Jenkins.jobs_request (env := Samples.troubled_jenkins)
                    (Samples.client_of
                       (Samples.jenkins_backend "https://bad.example.org" None
                          None None)))
                 Samples.fresh)) |}.
Proof.
  exact (malformed_job_aborts (env := Samples.troubled_jenkins)
           (Samples.jenkins_backend "https://bad.example.org" None None None)
           _ "build" Samples.fresh [Samples.job_A] Samples.job_without_url
           [Samples.job_A] (KeyError "url") eq_refl eq_refl eq_refl
           (or_introl eq_refl)).
Defined.

(** X8, witness: job [F] answers with an object without [builds]. *)
Lemma payload_without_builds_aborts_witness :
  yielded (Jenkins.fetch_items (env := Samples.troubled_jenkins) Samples.ci
             "build" Samples.fresh) = [Samples.build_A1; Samples.build_A2]
  /\ ending (Jenkins.fetch_items (env := Samples.troubled_jenkins) Samples.ci
               "build" Samples.fresh) = Raise (KeyError "builds").
Proof.
  destruct (payload_without_builds_aborts (env := Samples.troubled_jenkins)
              Samples.ci (Samples.client_of Samples.ci) "build" Samples.fresh
              [Samples.job_A] Samples.job_F [Samples.job_A]
              (PStr "https://ci.example.org/job/F/") (PStr "F") "{}" (PDict [])
              (KeyError "builds")
              (log_request
                 (Jenkins.builds_request (env := Samples.troubled_jenkins)
                    (Samples.client_of Samples.ci) (PStr "F"))
                 (world
                    (Jenkins.fetch_items_loop (env := Samples.troubled_jenkins)
                       (Samples.client_of Samples.ci) [Samples.job_A]
                       (log_request
                          (Jenkins.jobs_request (env := Samples.troubled_jenkins)
                             (Samples.client_of Samples.ci))
                          Samples.fresh))))
              eq_refl eq_refl eq_refl eq_refl eq_refl eq_refl
              ltac:(discriminate) eq_refl eq_refl)
    as [Hrun _].
  rewrite Hrun. split; reflexivity.
Defined.

(** X9, witness: four jobs, three of them skipped, five requests at most. *)
Lemma fetch_items_bounds_witness :
  summary_skipped
    (world (Jenkins.fetch_items (env := Samples.jenkins) Samples.ci "build"
              Samples.fresh)) <= 4
  /\ (List.length
        (requests
           (world (Jenkins.fetch_items (env := Samples.jenkins) Samples.ci
                     "build" Samples.fresh))) <= 5)%nat.
Proof.
  destruct (fetch_items_bounds (env := Samples.jenkins) Samples.ci
              (Samples.client_of Samples.ci) "build" Samples.fresh
              [Samples.job_A; Samples.job_B; Samples.job_C; Samples.job_D]
              eq_refl eq_refl) as [_ [Hs Hr]].
  split; [exact Hs | exact Hr].
Defined.

(** X10, witness: the run that stops at job [E] has yielded the builds of
    the first [A], and those only. *)
Lemma fetch_items_yields_passed_jobs_witness :
  ending (Jenkins.fetch_items (env := Samples.jenkins) Samples.old_ci "build"
            Samples.fresh) = Raise (HTTPError 404)
  /\ yielded (Jenkins.fetch_items (env := Samples.jenkins) Samples.old_ci
               "build" Samples.fresh) = [Samples.build_A1; Samples.build_A2].
Proof.
  destruct (fetch_items_yields_passed_jobs (env := Samples.jenkins)
              Samples.old_ci (Samples.client_of Samples.old_ci) "build"
              Samples.fresh [Samples.job_A; Samples.job_E; Samples.job_A]
              eq_refl eq_refl)
    as [[Hend _] | [e [pre [job [post [_ [_ [_ [Hend _]]]]]]]]];
    split; reflexivity.
Defined.

(** X11, witness: with [A] on the deny-list all four jobs of the first node
    are counted as skipped. *)
Lemma denied_jobs_count_as_skipped_witness :
  summary_skipped
    (world (Jenkins.fetch_items_loop (env := Samples.jenkins)
              (Samples.client_of Samples.ci_without_A)
              [Samples.job_A; Samples.job_B; Samples.job_C; Samples.job_D]
              Samples.fresh))
  = 3 + 1.
Proof.
  exact (denied_jobs_count_as_skipped (env := Samples.jenkins)
           (Samples.client_of Samples.ci_without_A)
           [Samples.job_A; Samples.job_B; Samples.job_C; Samples.job_D]
           Samples.fresh eq_refl).
Defined.

(** X13, witness: a connector built with depth 2 asks for the builds of
    each job with [depth] 2. *)
Lemma detail_depth_reaches_requests_witness :
  exists self others,
    Jenkins.__init__ "https://ci.example.org" None None None None 2
      Jenkins.SLEEP_TIME None = Ok self
    /\ List.length others = 4%nat
    /\ Forall (fun r => req_payload r = Some [("depth", PInt 2)]) others.
Proof.
  eexists.
  destruct (detail_depth_reaches_requests (env := Samples.jenkins)
              "https://ci.example.org" None None None None 2 Jenkins.SLEEP_TIME
              None _ false "build" Samples.fresh eq_refl)
    as [others [Hlog [_ Hall]]].
  exists others. split; [reflexivity|]. split; [|exact Hall].
  apply (f_equal (@List.length Request)) in Hlog.
  cbn in Hlog. injection Hlog as Hlog. symmetry. exact Hlog.
Defined.
